(** * CatBoost + ICA band reduction for hyperspectral cubes

    A shallow embedding of [4._catboost_ICA_GPU.py]: the three functions of
    the script ([visualize_classification_map], [model_train_test], [ICA])
    are written in a small state-and-exception monad.  Every call into
    numpy-external code (scikit-learn, CatBoost, matplotlib, the clock) is an
    explicit request answered by an environment and recorded, with its answer,
    in the log of the run; the theorems read the log. *)

From Stdlib Require Import List String ZArith QArith Qround Arith Bool Lia.
From Stdlib Require Import DecimalString Qabs.
Import ListNotations.
Local Open Scope string_scope.
Local Open Scope list_scope.
Local Open Scope nat_scope.

Set Implicit Arguments.

(* ===================================================================== *)
(** ** Python exceptions *)
(* ===================================================================== *)

(** An exception is its class name and its message. *)
Record exn := PyExc { exn_class : string; exn_msg : string }.

Definition ValueError (msg : string) : exn := PyExc "ValueError" msg.
Definition IndexError (msg : string) : exn := PyExc "IndexError" msg.

(* ===================================================================== *)
(** ** numpy arrays *)
(* ===================================================================== *)

(** A C-contiguous array: its shape and its elements in row-major order. *)
Record ndarray (A : Type) := mk_ndarray { shape : list nat; data : list A }.

Arguments mk_ndarray {A} shape data.

Definition prod_dims (dims : list nat) : nat := fold_right Nat.mul 1 dims.

Definition size {A} (a : ndarray A) : nat := prod_dims (shape a).

(** [a.shape[k]] *)
Definition shape_at {A} (a : ndarray A) (k : nat) : exn + nat :=
  match nth_error (shape a) k with
  | Some d => inr d
  | None => inl (IndexError "tuple index out of range")
  end.

(** [a.reshape(dims)]: the element buffer is kept, the shape replaced; numpy
    refuses a shape of another size. *)
Definition reshape {A} (a : ndarray A) (dims : list nat) : exn + ndarray A :=
  if prod_dims dims =? size a
  then inr (mk_ndarray dims (data a))
  else inl (ValueError "cannot reshape array into the requested shape").

(** [a.reshape(-1)] *)
Definition ravel {A} (a : ndarray A) : ndarray A :=
  mk_ndarray [size a] (data a).

(** Row-major offset of a multi-index, [None] when the index has the wrong
    rank or leaves the shape. *)
Fixpoint offset (dims idx : list nat) (acc : nat) : option nat :=
  match dims, idx with
  | [], [] => Some acc
  | d :: dims', i :: idx' =>
      if i <? d then offset dims' idx' (acc * d + i) else None
  | _, _ => None
  end.

(** [a[idx]] *)
Definition item {A} (a : ndarray A) (idx : list nat) : option A :=
  match offset (shape a) idx 0 with
  | Some k => nth_error (data a) k
  | None => None
  end.

(** [np.unique(a)]: the distinct values of [a], ascending. *)
Fixpoint insert_unique (z : Z) (l : list Z) : list Z :=
  match l with
  | [] => [z]
  | x :: l' =>
      if (z <? x)%Z then z :: l
      else if (z =? x)%Z then l
      else x :: insert_unique z l'
  end.

Definition np_unique (a : ndarray Z) : ndarray Z :=
  let u := fold_right insert_unique [] (data a) in
  mk_ndarray [List.length u] u.

(* ===================================================================== *)
(** ** Requests to the external collaborators *)
(* ===================================================================== *)

(** Keyword arguments of [CatBoostClassifier(...)]. *)
Record CatBoostParams := {
  iterations : nat;
  learning_rate : Q;
  depth : nat;
  loss_function : string;
  eval_metric : string;
  random_seed : Z;
  task_type : string;
  early_stopping_rounds : nat;
  custom_metric : list string
}.

(** What an f-string interpolates. *)
Inductive fragment :=
| Str (s : string)
| Labels (a : ndarray Z)
| Dims (d : list nat)
| Num (q : Q).

(** The library calls of the script, indexed by the type of their result.
    [model] is the type of a fitted classifier. *)
Inductive call (model : Type) : Type -> Type :=
| StandardScaler_fit_transform (X : ndarray Q) : call model (ndarray Q)
| FastICA_fit_transform (n_components : nat) (random_state : option Z)
    (X : ndarray Q) : call model (ndarray Q)
| train_test_split (X : ndarray Q) (y : ndarray Z)
    (stratify : option (ndarray Z)) (test_size : Q) (random_state : option Z)
    : call model (ndarray Q * ndarray Q * ndarray Z * ndarray Z)
| CatBoost_fit (params : CatBoostParams) (X : ndarray Q) (y : ndarray Z)
    (eval_set : option (ndarray Q * ndarray Z)) : call model model
| CatBoost_predict (m : model) (X : ndarray Q) : call model (ndarray Z)
| accuracy_score (y_true y_pred : ndarray Z) : call model Q
| classification_report (y_true y_pred : ndarray Z) : call model string
| confusion_matrix (y_true y_pred : ndarray Z) : call model (ndarray Z)
| plt_figure (figsize : nat * nat) : call model unit
| plt_subplot (nrows ncols index : nat) : call model unit
| plt_imshow (img : ndarray Z) (cmap : string) : call model unit
| plt_title (label : string) : call model unit
| plt_axis (option_ : string) : call model unit
| plt_savefig (fname : string) : call model unit.

Arguments StandardScaler_fit_transform {model} X.
Arguments FastICA_fit_transform {model} n_components random_state X.
Arguments train_test_split {model} X y stratify test_size random_state.
Arguments CatBoost_fit {model} params X y eval_set.
Arguments CatBoost_predict {model} m X.
Arguments accuracy_score {model} y_true y_pred.
Arguments classification_report {model} y_true y_pred.
Arguments confusion_matrix {model} y_true y_pred.
Arguments plt_figure {model} figsize.
Arguments plt_subplot {model} nrows ncols index.
Arguments plt_imshow {model} img cmap.
Arguments plt_title {model} label.
Arguments plt_axis {model} option_.
Arguments plt_savefig {model} fname.

(** One entry of the log. *)
Inductive event (model : Type) :=
| Called (X : Type) (c : call model X) (r : exn + X)
| Clock (t : Q)
| Printed (line : list fragment).

Arguments Called {model X} c r.
Arguments Clock {model} t.
Arguments Printed {model} line.

(** An environment answers every library call, with a value or an exception,
    and may change its world doing so; [clock] is [time.time()]. *)
Record Env := {
  model : Type;
  world : Type;
  respond : forall X, call model X -> world -> (exn + X) * world;
  clock : world -> Q * world
}.

Arguments respond _ {X} _ _.

(* ===================================================================== *)
(** ** The script monad *)
(* ===================================================================== *)

Section Script.

Context {E : Env}.

(** What a run leaves behind: a value or the exception that stopped it, the
    world it ended in, and the log of what it asked and printed. *)
Record result (A : Type) := mk_result {
  outcome : exn + A;
  world_of : world E;
  log_of : list (event (model E))
}.

Definition M (A : Type) : Type := world E -> result A.

Definition ret {A} (a : A) : M A := fun w => mk_result (inr a) w [].

Definition raise {A} (e : exn) : M A := fun w => mk_result (inl e) w [].

Definition bind {A B} (m : M A) (k : A -> M B) : M B :=
  fun w =>
    match m w with
    | mk_result (inr a) w' l =>
        match k a w' with
        | mk_result o w'' l' => mk_result o w'' (l ++ l')
        end
    | mk_result (inl e) w' l => mk_result (inl e) w' l
    end.

(** A pure numpy operation that may raise. *)
Definition lift {A} (r : exn + A) : M A :=
  match r with inr a => ret a | inl e => raise e end.

Definition invoke {X} (c : call (model E) X) : M X :=
  fun w => let (r, w') := respond E c w in mk_result r w' [Called c r].

Definition time_time : M Q :=
  fun w => let (t, w') := clock E w in mk_result (inr t) w' [Clock t].

Definition print (line : list fragment) : M unit :=
  fun w => mk_result (inr tt) w [Printed line].

(** Running a script in a world. *)
Definition run {A} (m : M A) (w : world E) : result A := m w.

End Script.

Arguments result E A : clear implicits.
Arguments M E A : clear implicits.
Arguments mk_result {E A} outcome world_of log_of.

Declare Scope script_scope.
Delimit Scope script_scope with script.
Notation "x <- m ;; k" := (bind m (fun x => k))
  (at level 61, m at next level, right associativity) : script_scope.
Notation "m ;; k" := (bind m (fun _ => k))
  (at level 61, right associativity) : script_scope.
Local Open Scope script_scope.

(* ===================================================================== *)
(** ** The script *)
(* ===================================================================== *)

Section Pipeline.

Context {E : Env}.

Definition figure_file (dataset_name : string) : string :=
  dataset_name ++ "_classification_vs_ground_truth.png".

(** [visualize_classification_map]: no [return] statement, the result is
    [None]. *)
Definition visualize_classification_map
    (classification_map ground_truth_map : ndarray Z) (dataset_name : string)
    : M E unit :=
  invoke (plt_figure (10, 5)) ;;
  invoke (plt_subplot 1 2 1) ;;
  invoke (plt_imshow ground_truth_map "jet") ;;
  invoke (plt_title ("Ground Truth - " ++ dataset_name)) ;;
  invoke (plt_axis "off") ;;
  invoke (plt_subplot 1 2 2) ;;
  invoke (plt_imshow classification_map "tab20") ;;
  invoke (plt_title ("Classification Map - " ++ dataset_name)) ;;
  invoke (plt_axis "off") ;;
  invoke (plt_savefig (figure_file dataset_name)) ;;
  print [Str ("Figure saved as " ++ figure_file dataset_name)].

Definition catboost_params (random_state : Z) : CatBoostParams :=
  {| iterations := 1000;
     learning_rate := 1 # 10;
     depth := 6;
     loss_function := "MultiClass";
     eval_metric := "Accuracy";
     random_seed := random_state;
     task_type := "GPU";
     early_stopping_rounds := 50;
     custom_metric := ["Accuracy"] |}.

(** [model_train_test(hsi_image, gt, hsi_image_limited, test_size, random_state)] *)
Definition model_train_test
    (hsi_image : ndarray Q) (gt : ndarray Z) (hsi_image_limited : ndarray Q)
    (test_size : Q) (random_state : Z)
    : M E (Q * Q * ndarray Z * ndarray Z) :=
  d0 <- lift (shape_at hsi_image 0) ;;
  d1 <- lift (shape_at hsi_image 1) ;;
  let n_samples := d0 * d1 in
  n_bands <- lift (shape_at hsi_image 2) ;;
  hsi_image_reshaped <- lift (reshape hsi_image [n_samples; n_bands]) ;;
  parts <- invoke (train_test_split hsi_image_limited (ravel gt)
                     (Some (ravel gt)) test_size (Some random_state)) ;;
  let '(X_train, X_test, y_train, y_test) := parts in
  print [Str "Unique classes in train set: "; Labels (np_unique y_train)] ;;
  print [Str "Unique classes in test set: "; Labels (np_unique y_test)] ;;
  let cbc := catboost_params random_state in
  start <- time_time ;;
  fitted <- invoke (CatBoost_fit cbc X_train y_train (Some (X_test, y_test))) ;;
  end_ <- time_time ;;
  let total_time := (end_ - start)%Q in
  y_pred <- invoke (CatBoost_predict fitted X_test) ;;
  acc <- invoke (accuracy_score y_test y_pred) ;;
  print [Str "Test set accuracy: "; Num acc] ;;
  y_pred_full <- invoke (CatBoost_predict fitted hsi_image_reshaped) ;;
  print [Str "Unique classes in full prediction: "; Labels (np_unique y_pred_full)] ;;
  h <- lift (shape_at hsi_image 0) ;;
  w <- lift (shape_at hsi_image 1) ;;
  classification_map <- lift (reshape y_pred_full [h; w]) ;;
  h' <- lift (shape_at hsi_image 0) ;;
  w' <- lift (shape_at hsi_image 1) ;;
  ground_truth_map <- lift (reshape gt [h'; w']) ;;
  print [Str "Shape of classification map: "; Dims (shape classification_map)] ;;
  print [Str "Shape of ground truth map: "; Dims (shape ground_truth_map)] ;;
  print [Str "Unique values in classification map: ";
         Labels (np_unique classification_map)] ;;
  print [Str "Unique values in ground truth map: ";
         Labels (np_unique ground_truth_map)] ;;
  print [Str "Classification Report:"] ;;
  report <- invoke (classification_report (ravel gt) y_pred_full) ;;
  print [Str report] ;;
  print [Str "Confusion Matrix:"] ;;
  cm <- invoke (confusion_matrix (ravel gt) y_pred_full) ;;
  print [Labels cm] ;;
  ret (acc, total_time, classification_map, ground_truth_map).

(** [ICA(hsi_image, gt, n_components)] *)
Definition ICA (hsi_image : ndarray Q) (gt : ndarray Z) (n_components : nat)
    : M E (Q * Q * ndarray Z * ndarray Z) :=
  d0 <- lift (shape_at hsi_image 0) ;;
  d1 <- lift (shape_at hsi_image 1) ;;
  let n_samples := d0 * d1 in
  n_bands <- lift (shape_at hsi_image 2) ;;
  hsi_image_reshaped <- lift (reshape hsi_image [n_samples; n_bands]) ;;
  hsi_image_scaled <- invoke (StandardScaler_fit_transform hsi_image_reshaped) ;;
  if n_bands <? n_components
  then raise (ValueError
                "Number of components exceeds the number of bands in the image.")
  else
    hsi_image_limited <-
      invoke (FastICA_fit_transform n_components (Some 42%Z) hsi_image_scaled) ;;
    print [Str "Shape of data after ICA reduction: ";
           Dims (shape hsi_image_limited)] ;;
    model_train_test hsi_image gt hsi_image_limited (1 # 5) 42.

End Pipeline.

(* ===================================================================== *)
(** ** Reading the log *)
(* ===================================================================== *)

Section Log.

Variable model : Type.

Definition scaler_call (e : event model) : option (ndarray Q) :=
  match e with
  | Called c _ =>
      match c with StandardScaler_fit_transform X => Some X | _ => None end
  | _ => None
  end.

(** Arguments and answer of a [FastICA(...).fit_transform] entry. *)
Definition ica_call (e : event model)
    : option (nat * option Z * ndarray Q * (exn + ndarray Q)) :=
  match e with
  | Called c r =>
      match c in call _ X return (exn + X) -> _ with
      | FastICA_fit_transform n rs X => fun r => Some (n, rs, X, r)
      | _ => fun _ => None
      end r
  | _ => None
  end.

Definition split_call (e : event model)
    : option (ndarray Q * ndarray Z * option (ndarray Z) * Q * option Z *
              (exn + ndarray Q * ndarray Q * ndarray Z * ndarray Z)) :=
  match e with
  | Called c r =>
      match c in call _ X return (exn + X) -> _ with
      | train_test_split X y s ts rs => fun r => Some (X, y, s, ts, rs, r)
      | _ => fun _ => None
      end r
  | _ => None
  end.

Definition fit_call (e : event model)
    : option (CatBoostParams * ndarray Q * ndarray Z *
              option (ndarray Q * ndarray Z)) :=
  match e with
  | Called c _ =>
      match c with
      | CatBoost_fit p X y ev => Some (p, X, y, ev)
      | _ => None
      end
  | _ => None
  end.

(** Model, table and answer of a [predict] entry. *)
Definition predict_call (e : event model)
    : option (model * ndarray Q * (exn + ndarray Z)) :=
  match e with
  | Called c r =>
      match c in call _ X return (exn + X) -> _ with
      | CatBoost_predict m X => fun r => Some (m, X, r)
      | _ => fun _ => None
      end r
  | _ => None
  end.

(** Arguments and answer of an [accuracy_score] entry. *)
Definition accuracy_call (e : event model)
    : option (ndarray Z * ndarray Z * (exn + Q)) :=
  match e with
  | Called c r =>
      match c in call _ X return (exn + X) -> _ with
      | accuracy_score yt yp => fun r => Some (yt, yp, r)
      | _ => fun _ => None
      end r
  | _ => None
  end.

Definition report_call (e : event model) : option (ndarray Z * ndarray Z) :=
  match e with
  | Called c _ =>
      match c with
      | classification_report yt yp => Some (yt, yp)
      | _ => None
      end
  | _ => None
  end.

Definition confusion_call (e : event model) : option (ndarray Z * ndarray Z) :=
  match e with
  | Called c _ =>
      match c with confusion_matrix yt yp => Some (yt, yp) | _ => None end
  | _ => None
  end.

Definition savefig_call (e : event model) : option string :=
  match e with
  | Called c _ => match c with plt_savefig f => Some f | _ => None end
  | _ => None
  end.

(** The entries of a log that a reader [f] recognises, in order. *)
Fixpoint collect {A} (f : event model -> option A) (log : list (event model))
    : list A :=
  match log with
  | [] => []
  | e :: log' =>
      match f e with
      | Some a => a :: collect f log'
      | None => collect f log'
      end
  end.

End Log.

(* ===================================================================== *)
(** ** A reference environment

    The libraries are not part of the repository.  Where the specification
    describes what a collaborator does, the reference environment follows the
    specification; the numerical solvers (ICA, gradient boosting) are replaced
    by small deterministic stand-ins of the right shape. *)
(* ===================================================================== *)

Definition string_of_Z (z : Z) : string := NilZero.string_of_int (Z.to_int z).

Fixpoint map_checked {A B} (f : A -> exn + B) (l : list A) : exn + list B :=
  match l with
  | [] => inr []
  | a :: l' =>
      match f a with
      | inl e => inl e
      | inr b =>
          match map_checked f l' with
          | inl e => inl e
          | inr bs => inr (b :: bs)
          end
      end
  end.

(** Row [i] of a table with [k] columns stored row-major in [d]. *)
Definition row_of {A} (k : nat) (d : list A) (i : nat) : list A :=
  firstn k (skipn (i * k) d).

(** Column [j] of a table with [n] rows and [k] columns. *)
Definition column (k j : nat) (d : list Q) (n : nat) : list Q :=
  map (fun i => nth (i * k + j) d 0%Q) (seq 0 n).

(** [X[idx]]: the listed rows of a 2-D table. *)
Definition take_rows {A} (X : ndarray A) (idx : list nat) : ndarray A :=
  let k := nth 1 (shape X) 1 in
  mk_ndarray [List.length idx; k] (flat_map (row_of k (data X)) idx).

(** [y[idx]] for a vector. *)
Definition take_items (y : ndarray Z) (idx : list nat) : ndarray Z :=
  mk_ndarray [List.length idx] (map (fun i => nth i (data y) 0%Z) idx).

(** *** Standardization *)

Definition Qsum (l : list Q) : Q := fold_right Qplus 0%Q l.

Definition Qlen (l : list Q) : Q := inject_Z (Z.of_nat (List.length l)).

(** Division that reports a zero divisor instead of performing it. *)
Definition checked_div (x s : Q) : exn + Q :=
  if Qeq_bool s 0
  then inl (PyExc "ZeroDivisionError" "division by zero")
  else inr (x / s)%Q.

(** The mean of a column: its sum divided by the number of rows. *)
Definition mean (col : list Q) : exn + Q := checked_div (Qsum col) (Qlen col).

(** The variance of a column: the mean of the squared deviations. *)
Definition variance (col : list Q) : exn + Q :=
  match mean col with
  | inl e => inl e
  | inr m => checked_div (Qsum (map (fun x => (x - m) * (x - m))%Q col))
                         (Qlen col)
  end.

(** Square root to six decimal places, rounded down. *)
Definition sqrt_approx (x : Q) : Q :=
  Qmake (Z.sqrt (Qnum x * Zpos (Qden x) * 10 ^ 12))
        (Qden x * 1000000).

(** Modelled from the spec: the scale of a column is its standard deviation,
    with the sentinel 1 substituted for a zero-variance column (section 4.1);
    [StandardScaler] itself is scikit-learn code, absent from the
    repository. *)
Definition scale_of (col : list Q) : exn + Q :=
  match variance col with
  | inl e => inl e
  | inr v => inr (if Qeq_bool v 0 then 1%Q else sqrt_approx v)
  end.

Fixpoint rescale_row (xs means scales : list Q) : exn + list Q :=
  match xs, means, scales with
  | x :: xs', m :: means', s :: scales' =>
      match checked_div (x - m) s with
      | inl e => inl e
      | inr v =>
          match rescale_row xs' means' scales' with
          | inl e => inl e
          | inr vs => inr (v :: vs)
          end
      end
  | _, _, _ => inr []
  end.

(** Modelled from the spec: [StandardScaler().fit_transform] (scikit-learn,
    absent from the repository) computes per-column mean and standard
    deviation over all rows and rescales each column, keeping the shape
    (section 4.1).  Every division is a checked one: by the number of rows
    for the mean and the variance, by the scale for the rescaling. *)
Definition standardize (X : ndarray Q) : exn + ndarray Q :=
  match shape X with
  | [n; k] =>
      let cols := map (fun j => column k j (data X) n) (seq 0 k) in
      match map_checked mean cols with
      | inl e => inl e
      | inr means =>
          match map_checked scale_of cols with
          | inl e => inl e
          | inr scales =>
              match map_checked
                      (fun i => rescale_row (row_of k (data X) i) means scales)
                      (seq 0 n) with
              | inl e => inl e
              | inr rows => inr (mk_ndarray [n; k] (List.concat rows))
              end
          end
      end
  | _ => inl (ValueError "Expected 2D array")
  end.

(** *** Stratified split *)

Definition class_count (y : list Z) (c : Z) : nat := count_occ Z.eq_dec y c.

Definition classes_of (y : list Z) : list Z := fold_right insert_unique [] y.

(** The first class, in ascending order, with fewer than two members. *)
Definition undersized_class (y : list Z) : option Z :=
  find (fun c => class_count y c <? 2) (classes_of y).

Definition too_few_members (c : Z) : exn :=
  ValueError ("The least populated class in y has too few members: class "
              ++ string_of_Z c).

(** Stand-in for the seeded shuffle: a rotation by the seed. *)
Definition shuffled (seed : Z) (n : nat) : list nat :=
  let k := Z.to_nat (seed mod Z.of_nat (Nat.max n 1)) in
  skipn k (seq 0 n) ++ firstn k (seq 0 n).

Definition test_count (test_size : Q) (n : nat) : nat :=
  Z.to_nat (Qceiling (test_size * inject_Z (Z.of_nat n))).

Definition members (y : list Z) (order : list nat) (c : Z) : list nat :=
  filter (fun i => (nth i y 0 =? c)%Z) order.

(** Train and test indices.  Stratified: every class gives its share
    [test_size] of members to the test partition. *)
Definition split_indices (stratify : option (list Z)) (test_size : Q)
    (seed : Z) (n : nat) : list nat * list nat :=
  let order := shuffled seed n in
  match stratify with
  | Some y =>
      let per_class := map (members y order) (classes_of y) in
      (flat_map (fun m => skipn (test_count test_size (List.length m)) m) per_class,
       flat_map (fun m => firstn (test_count test_size (List.length m)) m) per_class)
  | None =>
      (skipn (test_count test_size n) order,
       firstn (test_count test_size n) order)
  end.

(** Modelled from the spec: [train_test_split] (scikit-learn, absent from
    the repository) partitions the rows into train and test, stratified on
    the label when a stratification key is given, and fails with an error
    naming the class when a class has too few samples to stratify, at least
    two being needed (sections 3, 4.3 and 8). *)
Definition split_arrays (X : ndarray Q) (y : ndarray Z)
    (stratify : option (ndarray Z)) (test_size : Q) (seed : Z)
    : exn + ndarray Q * ndarray Q * ndarray Z * ndarray Z :=
  let n := List.length (data y) in
  if negb (nth 0 (shape X) 0 =? n)
  then inl (ValueError "Found input variables with inconsistent numbers of samples")
  else
    match match stratify with
          | Some s => undersized_class (data s)
          | None => None
          end with
    | Some c => inl (too_few_members c)
    | None =>
        let (train, test) :=
          split_indices (option_map (@data Z) stratify) test_size seed n in
        inr (take_rows X train, take_rows X test,
             take_items y train, take_items y test)
    end.

(** *** Stand-ins for the solvers *)

(** Stand-in for [FastICA(n_components, random_state).fit_transform]: a table
    of the announced shape [(rows, n_components)], made of [n_components]
    consecutive columns of the input starting at a seed-dependent one. *)
Definition unmix (n_components : nat) (seed : Z) (X : ndarray Q)
    : exn + ndarray Q :=
  match shape X with
  | [n; k] =>
      if k <? n_components
      then inl (ValueError "n_components is too large")
      else
        let first := Z.to_nat (seed mod Z.of_nat (Nat.max k 1)) in
        inr (mk_ndarray [n; n_components]
               (flat_map
                  (fun i => map (fun c => nth (i * k + (first + c) mod k)
                                              (data X) 0%Q)
                                (seq 0 n_components))
                  (seq 0 n)))
  | _ => inl (ValueError "Expected 2D array")
  end.

(** Stand-in for a fitted classifier: it remembers the number of features it
    was fitted on and answers the most frequent training label. *)
Record ref_model := { n_features : nat; answer : Z }.

Definition most_frequent (y : list Z) : Z :=
  fold_right (fun c best => if class_count y best <? class_count y c
                            then c else best)
             (hd 0%Z (classes_of y)) (classes_of y).

Definition ref_predict (m : ref_model) (X : ndarray Q) : exn + ndarray Z :=
  match shape X with
  | [n; k] =>
      if k <? n_features m
      then inl (PyExc "CatBoostError" "Feature count mismatch")
      else inr (mk_ndarray [n] (repeat (answer m) n))
  | _ => inl (PyExc "CatBoostError" "Expected 2D array")
  end.

(** *** Metrics *)

Definition count_equal (a b : list Z) : nat :=
  List.length (filter (fun p => (fst p =? snd p)%Z) (combine a b)).

Definition ref_accuracy (y_true y_pred : ndarray Z) : exn + Q :=
  if List.length (data y_true) =? List.length (data y_pred)
  then inr (Qred (Qmake (Z.of_nat (count_equal (data y_true) (data y_pred)))
                        (Pos.of_nat (List.length (data y_true)))))
  else inl (ValueError "Found input variables with inconsistent numbers of samples").

Definition ref_confusion (y_true y_pred : ndarray Z) : exn + ndarray Z :=
  if List.length (data y_true) =? List.length (data y_pred)
  then
    let cs := classes_of (data y_true ++ data y_pred) in
    let pairs := combine (data y_true) (data y_pred) in
    inr (mk_ndarray [List.length cs; List.length cs]
           (flat_map
              (fun t => map (fun p => Z.of_nat (List.length (filter
                               (fun tp => (fst tp =? t)%Z && (snd tp =? p)%Z)
                               pairs)))
                            cs)
              cs))
  else inl (ValueError "Found input variables with inconsistent numbers of samples").

(** Stand-in for the text report: the classes it would tabulate. *)
Definition ref_report (y_true y_pred : ndarray Z) : string :=
  String.append "labels: "
    (String.concat " " (map string_of_Z (classes_of (data y_true ++ data y_pred)))).

(** *** The world of the reference environment *)

Inductive drawing :=
| Subplot (nrows ncols index : nat)
| Imshow (img : ndarray Z) (cmap : string)
| Title (label : string)
| Axis (option_ : string).

Record ref_world := {
  ambient_seed : Z;                        (* numpy's global generator *)
  now : Q;                                 (* the wall clock *)
  gpu_available : bool;
  canvas : list drawing;                   (* matplotlib's current figure *)
  files : list (string * list drawing)     (* the working directory *)
}.

Definition lookup_file (fs : list (string * list drawing)) (path : string)
    : option (list drawing) :=
  option_map snd (find (fun p => String.eqb (fst p) path) fs).

(** Modelled from the spec: [plt.savefig] (matplotlib, absent from the
    repository) writes the current figure to the path, replacing whatever
    file was there (section 4.5). *)
Definition write_file (fs : list (string * list drawing)) (path : string)
    (content : list drawing) : list (string * list drawing) :=
  (path, content) :: filter (fun p => negb (String.eqb (fst p) path)) fs.

Definition draw (d : drawing) (w : ref_world) : ref_world :=
  {| ambient_seed := ambient_seed w; now := now w;
     gpu_available := gpu_available w;
     canvas := canvas w ++ [d]; files := files w |}.

(** The generator a library call uses: its own when [random_state] is an
    integer, numpy's global one, which it advances, otherwise. *)
Definition seed_for (random_state : option Z) (w : ref_world) : Z * ref_world :=
  match random_state with
  | Some s => (s, w)
  | None =>
      (ambient_seed w,
       {| ambient_seed := ambient_seed w + 1; now := now w;
          gpu_available := gpu_available w;
          canvas := canvas w; files := files w |})
  end.

Definition ref_respond (X : Type) (c : call ref_model X) (w : ref_world)
    : (exn + X) * ref_world :=
  match c in call _ X return (exn + X) * ref_world with
  | StandardScaler_fit_transform T => (standardize T, w)
  | FastICA_fit_transform n rs T =>
      let (seed, w') := seed_for rs w in (unmix n seed T, w')
  | train_test_split T y s ts rs =>
      let (seed, w') := seed_for rs w in (split_arrays T y s ts seed, w')
  | CatBoost_fit p T y _ =>
      if String.eqb (task_type p) "GPU" && negb (gpu_available w)
      then (inl (PyExc "CatBoostError" "No GPU devices found"), w)
      else (inr {| n_features := nth 1 (shape T) 0;
                   answer := most_frequent (data y) |}, w)
  | CatBoost_predict m T => (ref_predict m T, w)
  | accuracy_score yt yp => (ref_accuracy yt yp, w)
  | classification_report yt yp =>
      (inr (ref_report yt yp), w)
  | confusion_matrix yt yp => (ref_confusion yt yp, w)
  | plt_figure _ =>
      (inr tt, {| ambient_seed := ambient_seed w; now := now w;
                  gpu_available := gpu_available w;
                  canvas := []; files := files w |})
  | plt_subplot r k i => (inr tt, draw (Subplot r k i) w)
  | plt_imshow img cmap => (inr tt, draw (Imshow img cmap) w)
  | plt_title l => (inr tt, draw (Title l) w)
  | plt_axis o => (inr tt, draw (Axis o) w)
  | plt_savefig f =>
      (inr tt, {| ambient_seed := ambient_seed w; now := now w;
                  gpu_available := gpu_available w;
                  canvas := canvas w;
                  files := write_file (files w) f (canvas w) |})
  end.

Definition ref_clock (w : ref_world) : Q * ref_world :=
  (now w, {| ambient_seed := ambient_seed w; now := now w + 1;
             gpu_available := gpu_available w;
             canvas := canvas w; files := files w |}).

Definition ref_env : Env :=
  {| model := ref_model; world := ref_world;
     respond := ref_respond; clock := ref_clock |}.

Definition ref_start : ref_world :=
  {| ambient_seed := 7; now := 0; gpu_available := true;
     canvas := []; files := [] |}.

(* ===================================================================== *)
(** ** Reproducible calls *)
(* ===================================================================== *)

(** The calls whose answer scikit-learn documents as a function of their
    arguments alone: no randomness at all, or an integer [random_state]. *)
Definition seeded {model X} (c : call model X) : bool :=
  match c with
  | StandardScaler_fit_transform _ => true
  | FastICA_fit_transform _ (Some _) _ => true
  | train_test_split _ _ _ _ (Some _) => true
  | _ => false
  end.

(** An environment honours that contract when the answer to a seeded call
    is the same in every world. *)
Definition reproducible (E : Env) : Prop :=
  forall X (c : call (model E) X) (w1 w2 : world E),
    seeded c = true -> fst (respond E c w1) = fst (respond E c w2).

(* ===================================================================== *)
(** ** The log of a run that completes *)
(* ===================================================================== *)

(** What [model_train_test] logs when no call fails, as a function of the
    answers it received: the four parts of the split, the two clock
    readings, the fitted model, the two predictions, the accuracy, the report
    and the confusion matrix.  [flat] is the cube flattened to one row per
    pixel, [H] and [W] its spatial extent. *)
Definition complete_log {model : Type}
    (flat hsi_image_limited : ndarray Q) (gt : ndarray Z)
    (test_size : Q) (random_state : Z) (H W : nat)
    (X_train X_test : ndarray Q) (y_train y_test : ndarray Z)
    (start : Q) (fitted : model) (end_ : Q)
    (y_pred : ndarray Z) (acc : Q) (y_pred_full : ndarray Z)
    (report : string) (cm : ndarray Z) : list (event model) :=
  [ Called (train_test_split hsi_image_limited (ravel gt) (Some (ravel gt))
                             test_size (Some random_state))
           (inr (X_train, X_test, y_train, y_test));
    Printed [Str "Unique classes in train set: "; Labels (np_unique y_train)];
    Printed [Str "Unique classes in test set: "; Labels (np_unique y_test)];
    Clock start;
    Called (CatBoost_fit (catboost_params random_state) X_train y_train
                         (Some (X_test, y_test)))
           (inr fitted);
    Clock end_;
    Called (CatBoost_predict fitted X_test) (inr y_pred);
    Called (accuracy_score y_test y_pred) (inr acc);
    Printed [Str "Test set accuracy: "; Num acc];
    Called (CatBoost_predict fitted flat) (inr y_pred_full);
    Printed [Str "Unique classes in full prediction: ";
             Labels (np_unique y_pred_full)];
    Printed [Str "Shape of classification map: "; Dims [H; W]];
    Printed [Str "Shape of ground truth map: "; Dims [H; W]];
    Printed [Str "Unique values in classification map: ";
             Labels (np_unique (mk_ndarray [H; W] (data y_pred_full)))];
    Printed [Str "Unique values in ground truth map: ";
             Labels (np_unique (mk_ndarray [H; W] (data gt)))];
    Printed [Str "Classification Report:"];
    Called (classification_report (ravel gt) y_pred_full) (inr report);
    Printed [Str report];
    Printed [Str "Confusion Matrix:"];
    Called (confusion_matrix (ravel gt) y_pred_full) (inr cm);
    Printed [Labels cm] ].

(** What [visualize_classification_map] logs when no call fails. *)
Definition figure_log {model : Type}
    (classification_map ground_truth_map : ndarray Z) (dataset_name : string)
    : list (event model) :=
  [ Called (plt_figure (10, 5)) (inr tt);
    Called (plt_subplot 1 2 1) (inr tt);
    Called (plt_imshow ground_truth_map "jet") (inr tt);
    Called (plt_title ("Ground Truth - " ++ dataset_name)) (inr tt);
    Called (plt_axis "off") (inr tt);
    Called (plt_subplot 1 2 2) (inr tt);
    Called (plt_imshow classification_map "tab20") (inr tt);
    Called (plt_title ("Classification Map - " ++ dataset_name)) (inr tt);
    Called (plt_axis "off") (inr tt);
    Called (plt_savefig (dataset_name ++ "_classification_vs_ground_truth.png"))
           (inr tt);
    Printed [Str ("Figure saved as " ++ dataset_name
                  ++ "_classification_vs_ground_truth.png")] ].

(** The two panels the figure holds when it is saved. *)
Definition two_panels (classification_map ground_truth_map : ndarray Z)
    (dataset_name : string) : list drawing :=
  [ Subplot 1 2 1; Imshow ground_truth_map "jet";
    Title ("Ground Truth - " ++ dataset_name); Axis "off";
    Subplot 1 2 2; Imshow classification_map "tab20";
    Title ("Classification Map - " ++ dataset_name); Axis "off" ].

(* ===================================================================== *)
(** ** The driver *)
(* ===================================================================== *)

(** [d[key]] on the dictionary [scipy.io.loadmat] returns. *)
Definition getitem {A} (d : list (string * A)) (key : string) : exn + A :=
  match find (fun p => String.eqb (fst p) key) d with
  | Some p => inr (snd p)
  | None => inl (PyExc "KeyError" key)
  end.

(** Rounding to the nearest integer, ties to the even one. *)
Definition round_half_even (x : Q) : Z :=
  let n := Qfloor x in
  match Qcompare (x - inject_Z n) (1 # 2) with
  | Lt => n
  | Gt => (n + 1)%Z
  | Eq => if Z.even n then n else (n + 1)%Z
  end.

Definition two_digits (z : Z) : string :=
  if (z <? 10)%Z then String.append "0" (string_of_Z z) else string_of_Z z.

(** [f"{x:.2f}"] *)
Definition format_2f (x : Q) : string :=
  let hundredths := round_half_even (Qabs x * 100) in
  String.append (match Qcompare x 0 with Lt => "-" | _ => "" end)
    (String.append (string_of_Z (hundredths / 100))
       (String.append "." (two_digits (hundredths mod 100)))).

(** The line the driver prints for one data set.  [float_mul] is the product
    of two Python floats, rounded as binary64 rounds it. *)
Definition summary_line (float_mul : Q -> Q -> Q) (name : string)
    (training_time acc : Q) : list fragment :=
  [Str (name ++ " - Training Time: " ++ format_2f training_time
        ++ " sec, Accuracy: " ++ format_2f (float_mul acc 100%Q) ++ "%")].

Section Driver.

Context {E : Env}.

(** [scipy.io.loadmat(path)], at the type of a spectral cube and at the type
    of a label grid: the variables of the file, or the exception of a failed
    read. *)
Variable loadmat_cube : string -> exn + list (string * ndarray Q).
Variable loadmat_grid : string -> exn + list (string * ndarray Z).

(** [x * y] on Python floats: the binary64 product, rounding included. *)
Variable float_mul : Q -> Q -> Q.

(** [scipy.io.loadmat(path)[key]] *)
Definition load_cube (path key : string) : exn + ndarray Q :=
  match loadmat_cube path with
  | inl e => inl e
  | inr d => getitem d key
  end.

Definition load_grid (path key : string) : exn + ndarray Z :=
  match loadmat_grid path with
  | inl e => inl e
  | inr d => getitem d key
  end.

(** The module-level code of the script: load the four data sets, run [ICA]
    with its default [n_components = 10] and render, one data set after the
    other, then print the four summary lines. *)
Definition main : M E unit :=
  pavia_u <- lift (load_cube "src2/PaviaU.mat" "paviaU") ;;
  pavia_u_gt <- lift (load_grid "src2/PaviaU_gt.mat" "paviaU_gt") ;;
  pavia_c <- lift (load_cube "src2/Pavia.mat" "pavia") ;;
  pavia_c_gt <- lift (load_grid "src2/Pavia_gt.mat" "pavia_gt") ;;
  salinas <- lift (load_cube "src2/Salinas.mat" "salinas") ;;
  salinas_gt <- lift (load_grid "src2/Salinas_gt.mat" "salinas_gt") ;;
  indian_pines <- lift (load_cube "src2/Indian_pines.mat" "indian_pines") ;;
  indian_pines_gt <-
    lift (load_grid "src2/Indian_pines_gt.mat" "indian_pines_gt") ;;
  res_u <- ICA pavia_u pavia_u_gt 10 ;;
  let '(acc_pavia_u, training_time_pavia_u,
        classification_map_pavia_u, ground_truth_map_pavia_u) := res_u in
  visualize_classification_map classification_map_pavia_u
    ground_truth_map_pavia_u "Pavia University" ;;
  res_c <- ICA pavia_c pavia_c_gt 10 ;;
  let '(acc_pavia_c, training_time_pavia_c,
        classification_map_pavia_c, ground_truth_map_pavia_c) := res_c in
  visualize_classification_map classification_map_pavia_c
    ground_truth_map_pavia_c "Pavia Centre" ;;
  res_s <- ICA salinas salinas_gt 10 ;;
  let '(acc_salinas, training_time_salinas,
        classification_map_salinas, ground_truth_map_salinas) := res_s in
  visualize_classification_map classification_map_salinas
    ground_truth_map_salinas "Salinas" ;;
  res_i <- ICA indian_pines indian_pines_gt 10 ;;
  let '(acc_indian_pines, training_time_indian_pines,
        classification_map_indian_pines, ground_truth_map_indian_pines) :=
    res_i in
  visualize_classification_map classification_map_indian_pines
    ground_truth_map_indian_pines "Indian Pines" ;;
  print (summary_line float_mul "Pavia University" training_time_pavia_u
           acc_pavia_u) ;;
  print (summary_line float_mul "Pavia Centre" training_time_pavia_c
           acc_pavia_c) ;;
  print (summary_line float_mul "Salinas" training_time_salinas
           acc_salinas) ;;
  print (summary_line float_mul "Indian Pines" training_time_indian_pines
           acc_indian_pines).

End Driver.

(* ===================================================================== *)
(** ** More readers of the log *)
(* ===================================================================== *)

(** The exception of a call that failed. *)
Definition failure_of {model : Type} (e : event model) : option exn :=
  match e with
  | Called _ (inl x) => Some x
  | _ => None
  end.

Definition clock_reading {model : Type} (e : event model) : option Q :=
  match e with
  | Clock t => Some t
  | _ => None
  end.

Definition printed_line {model : Type} (e : event model)
    : option (list fragment) :=
  match e with
  | Printed l => Some l
  | _ => None
  end.

(** The exception of a failed read. *)
Definition load_error {A} (r : exn + A) : option exn :=
  match r with
  | inl e => Some e
  | inr _ => None
  end.

(** The paths of the four figures of the driver, in the order of the runs. *)
Definition driver_figures : list string :=
  [ "Pavia University_classification_vs_ground_truth.png";
    "Pavia Centre_classification_vs_ground_truth.png";
    "Salinas_classification_vs_ground_truth.png";
    "Indian Pines_classification_vs_ground_truth.png" ].

(* ===================================================================== *)
(** ** A small data set *)
(* ===================================================================== *)

(** Ten pixels in two rows of five, three bands each. *)
Definition demo_cube : ndarray Q :=
  mk_ndarray [2; 5; 3]
    (map inject_Z [1; 2; 3;  4; 5; 6;  7; 8; 9;  1; 0; 3;  2; 2; 3;
                   5; 5; 3;  1; 1; 3;  0; 9; 3;  4; 4; 3;  8; 2; 3]%Z).

(** Its labels: five background pixels (label 0), five of class 1. *)
Definition demo_gt : ndarray Z :=
  mk_ndarray [2; 5] [0; 1; 0; 1; 0;  1; 0; 1; 0; 1]%Z.

(** The same grid with a class of a single pixel. *)
Definition lonely_gt : ndarray Z :=
  mk_ndarray [2; 5] [0; 1; 0; 1; 0;  1; 0; 1; 0; 2]%Z.

(** The raw bands of [demo_cube], one row per pixel. *)
Definition demo_raw : ndarray Q := mk_ndarray [10; 3] (data demo_cube).

(** A reduced table for the ten pixels, two components each. *)
Definition demo_limited : ndarray Q :=
  mk_ndarray [10; 2]
    (map inject_Z [1; 2;  4; 5;  7; 8;  1; 0;  2; 2;
                   5; 5;  1; 1;  0; 9;  4; 4;  8; 2]%Z).

(** A world that differs from [ref_start] in generator, clock, accelerator
    and files. *)
Definition other_world : ref_world :=
  {| ambient_seed := 2; now := 100; gpu_available := false;
     canvas := [Title "left over"];
     files := [("Salinas_classification_vs_ground_truth.png", [Title "old"])] |}.



(** Four pixels in two rows of two, ten bands each, and their labels. *)
Definition wide_cube : ndarray Q :=
  mk_ndarray [2; 2; 10]
    (map (fun i => inject_Z ((Z.of_nat i * 7) mod 11)) (seq 0 40)).

Definition wide_gt : ndarray Z := mk_ndarray [2; 2] [0; 1; 1; 0]%Z.

(** A disk: the variables of each file. *)
Definition loadmat_from {A} (disk : list (string * list (string * A)))
    (path : string) : exn + list (string * A) :=
  match find (fun p => String.eqb (fst p) path) disk with
  | Some p => inr (snd p)
  | None => inl (PyExc "FileNotFoundError" path)
  end.

Definition cube_disk : list (string * list (string * ndarray Q)) :=
  [ ("src2/PaviaU.mat", [("paviaU", wide_cube)]);
    ("src2/Pavia.mat", [("pavia", wide_cube)]);
    ("src2/Salinas.mat", [("salinas", wide_cube)]);
    ("src2/Indian_pines.mat", [("indian_pines", wide_cube)]) ].

Definition grid_disk : list (string * list (string * ndarray Z)) :=
  [ ("src2/PaviaU_gt.mat", [("paviaU_gt", wide_gt)]);
    ("src2/Pavia_gt.mat", [("pavia_gt", wide_gt)]);
    ("src2/Salinas_gt.mat", [("salinas_gt", wide_gt)]);
    ("src2/Indian_pines_gt.mat", [("indian_pines_gt", wide_gt)]) ].

(** The same disk with the last label file holding another variable. *)
Definition grid_disk_wrong_key : list (string * list (string * ndarray Z)) :=
  [ ("src2/PaviaU_gt.mat", [("paviaU_gt", wide_gt)]);
    ("src2/Pavia_gt.mat", [("pavia_gt", wide_gt)]);
    ("src2/Salinas_gt.mat", [("salinas_gt", wide_gt)]);
    ("src2/Indian_pines_gt.mat", [("gt", wide_gt)]) ].

(** A grid that is not a three-axis cube. *)
Definition flat_image : ndarray Q := mk_ndarray [2; 5] (data demo_limited).

(* ===================================================================== *)
(** ** Stepping through a run *)
(* ===================================================================== *)

Ltac script_simpl := cbn [outcome world_of log_of fst snd app].

Ltac open_script :=
  unfold run, bind, invoke, lift, ret, raise, print, time_time;
  script_simpl.

(** Case analysis on the next answer of the environment. *)
Ltac next_answer :=
  match goal with
  | |- context [respond ?E ?c ?w] =>
      let r := fresh "r" in let w' := fresh "w" in let Hr := fresh "Hr" in
      destruct (respond E c w) as [r w'] eqn:Hr; destruct r
  | |- context [clock ?E ?w] =>
      let t := fresh "t" in let w' := fresh "w" in
      destruct (clock E w) as [t w']
  | |- context [reshape ?a ?d] =>
      let Hr := fresh "Hreshape" in destruct (reshape a d) eqn:Hr
  | p : (_ * _ * _ * _)%type |- _ =>
      let X_train := fresh "X_train" in let X_test := fresh "X_test" in
      let y_train := fresh "y_train" in let y_test := fresh "y_test" in
      destruct p as [[[X_train X_test] y_train] y_test]
  end.

Ltac walk := open_script; repeat (next_answer; script_simpl).

(* ===================================================================== *)
(** ** Arrays: shapes and element order *)
(* ===================================================================== *)

Lemma shape_at_cube {A} (a : ndarray A) H W B :
  shape a = [H; W; B] ->
  shape_at a 0 = inr H /\ shape_at a 1 = inr W /\ shape_at a 2 = inr B.
Proof. intros Hs. unfold shape_at. rewrite Hs. repeat split. Qed.

Lemma reshape_table {A} (a : ndarray A) H W B :
  shape a = [H; W; B] ->
  reshape a [H * W; B] = inr (mk_ndarray [H * W; B] (data a)).
Proof.
  intros Hs. unfold reshape, size. rewrite Hs. cbn [prod_dims fold_right].
  replace (H * W * (B * 1) =? H * (W * (B * 1))) with true; [reflexivity|].
  symmetry. apply Nat.eqb_eq. lia.
Qed.

Lemma reshape_inr {A} (a b : ndarray A) dims :
  reshape a dims = inr b ->
  b = mk_ndarray dims (data a) /\ prod_dims dims = size a.
Proof.
  unfold reshape. destruct (prod_dims dims =? size a) eqn:Hd; [|discriminate].
  intros [= <-]. apply Nat.eqb_eq in Hd. split; [reflexivity | exact Hd].
Qed.

Lemma reshape_same_shape {A} (a : ndarray A) :
  reshape a (shape a) = inr a.
Proof.
  unfold reshape, size. rewrite Nat.eqb_refl. destruct a; reflexivity.
Qed.

Lemma pixel_row_in_range i j H W : i < H -> j < W -> i * W + j < H * W.
Proof. intros Hi Hj. nia. Qed.

(** Row [i * W + j] of the flattened cube holds the bands of pixel [(i, j)]. *)
Lemma item_flattened {A} (a : ndarray A) H W B i j b :
  shape a = [H; W; B] -> i < H -> j < W -> b < B ->
  item (mk_ndarray [H * W; B] (data a)) [i * W + j; b] = item a [i; j; b].
Proof.
  intros Hs Hi Hj Hb. unfold item. rewrite Hs. cbn [shape data offset].
  pose proof (pixel_row_in_range Hi Hj) as Hij.
  apply Nat.ltb_lt in Hi, Hj, Hb, Hij. rewrite Hi, Hj, Hb, Hij.
  rewrite !Nat.mul_0_l, !Nat.add_0_l. reflexivity.
Qed.

(** Entry [(i, j)] of a vector reshaped to [(H, W)] is its entry [i * W + j]. *)
Lemma item_grid {A} (v : ndarray A) H W i j :
  shape v = [H * W] -> i < H -> j < W ->
  item (mk_ndarray [H; W] (data v)) [i; j] = item v [i * W + j].
Proof.
  intros Hs Hi Hj. unfold item. rewrite Hs. cbn [shape data offset].
  pose proof (pixel_row_in_range Hi Hj) as Hij.
  apply Nat.ltb_lt in Hi, Hj, Hij. rewrite Hi, Hj, Hij.
  rewrite !Nat.mul_0_l, !Nat.add_0_l. reflexivity.
Qed.

Lemma collect_app {model A} (f : event model -> option A) l1 l2 :
  collect f (l1 ++ l2) = collect f l1 ++ collect f l2.
Proof.
  induction l1 as [|e l1 IH]; cbn; [reflexivity|].
  destruct (f e); cbn; rewrite IH; reflexivity.
Qed.

(** Reading the shape of a three-dimensional cube and flattening it. *)
Ltac enter_cube Hs :=
  let H0 := fresh in let H1 := fresh in let H2 := fresh in
  destruct (shape_at_cube _ Hs) as (H0 & H1 & H2);
  open_script;
  repeat (first [rewrite H0 | rewrite H1 | rewrite H2
                | rewrite (reshape_table _ Hs)]; script_simpl);
  clear H0 H1 H2.

(* ===================================================================== *)
(** ** Rejection of too many components *)
(* ===================================================================== *)

Section Rejection.

Context {E : Env}.

(** C2, as the code has it: when [n_components] exceeds the number of bands,
    [ICA] has standardized the flattened cube, and called nothing else,
    before it raises its [ValueError]; the ICA fit, the split and the
    classifier are never reached. *)
Theorem ICA_rejects_before_reduction
    (w : world E) (hsi_image : ndarray Q) (gt : ndarray Z)
    (n_components H W B : nat) :
  shape hsi_image = [H; W; B] ->
  B < n_components ->
  let flat := mk_ndarray [H * W; B] (data hsi_image) in
  let r := run (ICA hsi_image gt n_components) w in
  log_of r =
    [Called (StandardScaler_fit_transform flat)
            (fst (respond E (StandardScaler_fit_transform flat) w))] /\
  outcome r =
    match fst (respond E (StandardScaler_fit_transform flat) w) with
    | inl e => inl e
    | inr _ => inl (ValueError
        "Number of components exceeds the number of bands in the image.")
    end.
Proof.
  intros Hs Hn flat r. subst r. unfold ICA.
  apply Nat.ltb_lt in Hn.
  enter_cube Hs. fold flat.
  destruct (respond E (StandardScaler_fit_transform flat) w) as [[e|scaled] w'].
  - script_simpl. split; reflexivity.
  - script_simpl. rewrite Hn. script_simpl. split; reflexivity.
Qed.

End Rejection.

(* ===================================================================== *)
(** ** Training and evaluation *)
(* ===================================================================== *)

Section TrainTest.

Context {E : Env}.

Variables (hsi_image : ndarray Q) (gt : ndarray Z) (hsi_image_limited : ndarray Q).
Variables (test_size : Q) (random_state : Z).
Variables (H W B : nat).
Hypothesis cube_shape : shape hsi_image = [H; W; B].

(** A run that returns has logged [complete_log]; the maps it returns are the
    full prediction and the labels, reshaped to the spatial extent. *)
Lemma model_train_test_complete
    (w : world E) (acc total_time : Q) (cmap gmap : ndarray Z) :
  outcome (run (model_train_test hsi_image gt hsi_image_limited
                                 test_size random_state) w)
    = inr (acc, total_time, cmap, gmap) ->
  exists X_train X_test y_train y_test start fitted end_ y_pred y_pred_full
         report cm,
    log_of (run (model_train_test hsi_image gt hsi_image_limited
                                  test_size random_state) w)
      = complete_log (mk_ndarray [H * W; B] (data hsi_image)) hsi_image_limited
          gt test_size random_state H W X_train X_test y_train y_test
          start fitted end_ y_pred acc y_pred_full report cm /\
    total_time = (end_ - start)%Q /\
    cmap = mk_ndarray [H; W] (data y_pred_full) /\
    gmap = mk_ndarray [H; W] (data gt) /\
    prod_dims [H; W] = size gt.
Proof.
  unfold model_train_test. enter_cube cube_shape.
  repeat (next_answer; script_simpl); try discriminate.
  intros [= <- <- <- <-].
  match goal with
  | Hg : reshape gt _ = inr _, Hp : reshape _ _ = inr _ |- _ =>
      apply reshape_inr in Hg, Hp;
      destruct Hg as [-> Hsize], Hp as [-> _]
  end.
  exists X_train, X_test, y_train, y_test.
  do 7 eexists. repeat split; try reflexivity; assumption.
Qed.

(** The split is asked for exactly once, with every label as stratification
    key, whatever happens afterwards. *)
Lemma split_log (w : world E) :
  collect (@split_call _)
    (log_of (run (model_train_test hsi_image gt hsi_image_limited
                                   test_size random_state) w)) =
  [(hsi_image_limited, ravel gt, Some (ravel gt), test_size, Some random_state,
    fst (respond E (train_test_split hsi_image_limited (ravel gt)
                      (Some (ravel gt)) test_size (Some random_state)) w))].
Proof.
  unfold model_train_test. enter_cube cube_shape.
  repeat (next_answer; script_simpl); reflexivity.
Qed.

(** [model_train_test] never calls the reducer. *)
Lemma reduction_log (w : world E) :
  collect (@ica_call _)
    (log_of (run (model_train_test hsi_image gt hsi_image_limited
                                   test_size random_state) w)) = [].
Proof.
  unfold model_train_test. enter_cube cube_shape.
  repeat (next_answer; script_simpl); reflexivity.
Qed.

(** C3: once the stratified split has answered, the classifier is fitted
    exactly once, on the train part, with the test part of that same split as
    [eval_set], and with 1000 iterations, learning rate 0.1, depth 6, the
    MultiClass loss, Accuracy as metric and 50 early-stopping rounds. *)
Theorem fit_validates_on_test_split
    (w : world E) (X_train X_test : ndarray Q) (y_train y_test : ndarray Z) :
  fst (respond E (train_test_split hsi_image_limited (ravel gt)
                    (Some (ravel gt)) test_size (Some random_state)) w)
    = inr (X_train, X_test, y_train, y_test) ->
  collect (@fit_call _)
    (log_of (run (model_train_test hsi_image gt hsi_image_limited
                                   test_size random_state) w)) =
  [({| iterations := 1000;
       learning_rate := 1 # 10;
       depth := 6;
       loss_function := "MultiClass";
       eval_metric := "Accuracy";
       random_seed := random_state;
       task_type := "GPU";
       early_stopping_rounds := 50;
       custom_metric := ["Accuracy"] |},
    X_train, y_train, Some (X_test, y_test))].
Proof.
  intros Hsplit. unfold model_train_test.
  enter_cube cube_shape.
  destruct (respond E _ w) as [r w1]. cbn [fst] in Hsplit. subst r.
  script_simpl.
  repeat (next_answer; script_simpl); reflexivity.
Qed.

(** C4, as the code has it: the accuracy that [model_train_test] returns is
    the answer of the one [accuracy_score] call of the run, made on the test
    labels of the split and the fitted model's prediction for the test
    features of the split; the train part is not an argument of it. *)
Theorem accuracy_is_scored_on_test_split
    (w : world E) (acc total_time : Q) (cmap gmap : ndarray Z) :
  let r := run (model_train_test hsi_image gt hsi_image_limited
                                 test_size random_state) w in
  outcome r = inr (acc, total_time, cmap, gmap) ->
  exists X_train X_test y_train y_test fitted y_pred,
    collect (@split_call _) (log_of r) =
      [(hsi_image_limited, ravel gt, Some (ravel gt), test_size,
        Some random_state, inr (X_train, X_test, y_train, y_test))] /\
    nth_error (collect (@predict_call _) (log_of r)) 0 =
      Some (fitted, X_test, inr y_pred) /\
    collect (@accuracy_call _) (log_of r) = [(y_test, y_pred, inr acc)].
Proof.
  intros r Hout. subst r.
  destruct (model_train_test_complete _ Hout)
    as (X_train & X_test & y_train & y_test & start & fitted & end_ & y_pred
        & y_pred_full & report & cm & Hlog & _).
  exists X_train, X_test, y_train, y_test, fitted, y_pred.
  rewrite Hlog. repeat split.
Qed.

(** Whatever call of the run takes labels takes them unfiltered. *)
Lemma no_label_is_masked (w : world E) :
  let r := run (model_train_test hsi_image gt hsi_image_limited
                                 test_size random_state) w in
  let labels := ravel gt in
  let parts := fst (respond E (train_test_split hsi_image_limited labels
                                 (Some labels) test_size (Some random_state)) w) in
  data labels = data gt /\
  collect (@split_call _) (log_of r) =
    [(hsi_image_limited, labels, Some labels, test_size, Some random_state,
      parts)] /\
  (forall p X y ev, In (p, X, y, ev) (collect (@fit_call _) (log_of r)) ->
     exists X_test y_test,
       parts = inr (X, X_test, y, y_test) /\ ev = Some (X_test, y_test)) /\
  (forall y_true y_pred a,
     In (y_true, y_pred, a) (collect (@accuracy_call _) (log_of r)) ->
     exists X_train X_test y_train,
       parts = inr (X_train, X_test, y_train, y_true)) /\
  (forall y_true y_pred,
     In (y_true, y_pred) (collect (@report_call _) (log_of r)) ->
     y_true = labels) /\
  (forall y_true y_pred,
     In (y_true, y_pred) (collect (@confusion_call _) (log_of r)) ->
     y_true = labels).
Proof.
  intros r labels parts. subst r parts labels.
  split; [reflexivity|]. split; [apply split_log|].
  unfold model_train_test. enter_cube cube_shape.
  repeat (next_answer; script_simpl);
    cbn [collect fit_call accuracy_call report_call confusion_call];
    repeat split; intros;
    repeat match goal with
           | Hin : In _ [] |- _ => destruct Hin
           | Hin : In _ (_ :: _) |- _ => destruct Hin as [Hin|Hin]
           | Heq : (_, _) = (_, _) |- _ => injection Heq as <-
           end;
    subst; eauto.
Qed.

(** C10: the background label is a class like the others.  The label vector
    handed to the split, as data and as stratification key, is the whole
    grid in row-major order; whatever fit, accuracy, report or confusion
    matrix call a run makes takes its labels unfiltered; and a run that
    returns has made each of them once: the fit on the train part of that
    split, the accuracy on its test part, the report and the confusion
    matrix against the whole grid. *)
Theorem background_pixels_are_ordinary (w : world E) :
  let r := run (model_train_test hsi_image gt hsi_image_limited
                                 test_size random_state) w in
  let labels := ravel gt in
  let parts := fst (respond E (train_test_split hsi_image_limited labels
                                 (Some labels) test_size (Some random_state)) w) in
  data labels = data gt /\
  collect (@split_call _) (log_of r) =
    [(hsi_image_limited, labels, Some labels, test_size, Some random_state,
      parts)] /\
  (forall p X y ev, In (p, X, y, ev) (collect (@fit_call _) (log_of r)) ->
     exists X_test y_test,
       parts = inr (X, X_test, y, y_test) /\ ev = Some (X_test, y_test)) /\
  (forall y_true y_pred a,
     In (y_true, y_pred, a) (collect (@accuracy_call _) (log_of r)) ->
     exists X_train X_test y_train,
       parts = inr (X_train, X_test, y_train, y_true)) /\
  (forall y_true y_pred,
     In (y_true, y_pred) (collect (@report_call _) (log_of r)) ->
     y_true = labels) /\
  (forall y_true y_pred,
     In (y_true, y_pred) (collect (@confusion_call _) (log_of r)) ->
     y_true = labels) /\
  (forall acc total_time cmap gmap,
     outcome r = inr (acc, total_time, cmap, gmap) ->
     exists X_train X_test y_train y_test y_pred y_pred_full,
       parts = inr (X_train, X_test, y_train, y_test) /\
       collect (@fit_call _) (log_of r) =
         [(catboost_params random_state, X_train, y_train,
           Some (X_test, y_test))] /\
       collect (@accuracy_call _) (log_of r) = [(y_test, y_pred, inr acc)] /\
       collect (@report_call _) (log_of r) = [(labels, y_pred_full)] /\
       collect (@confusion_call _) (log_of r) = [(labels, y_pred_full)]).
Proof.
  intros r labels parts.
  destruct (no_label_is_masked w) as (H1 & H2 & H3 & H4 & H5 & H6).
  split; [exact H1|]. split; [exact H2|]. split; [exact H3|].
  split; [exact H4|]. split; [exact H5|]. split; [exact H6|].
  intros acc total_time cmap gmap Hout. subst r labels parts.
  destruct (model_train_test_complete _ Hout)
    as (X_train & X_test & y_train & y_test & start & fitted & end_ & y_pred
        & y_pred_full & report & cm & Hlog & _).
  pose proof (split_log w) as Hsplit. rewrite Hlog in Hsplit.
  cbn [collect split_call complete_log] in Hsplit.
  injection Hsplit as Hparts.
  exists X_train, X_test, y_train, y_test, y_pred, y_pred_full.
  split; [symmetry; exact Hparts|]. rewrite Hlog. repeat split.
Qed.

(** In a run that returns, the classifier predicts twice: on the test
    features of the split, and on the flattened raw cube.  The second
    prediction is the one behind the classification map, the report and the
    confusion matrix; [hsi_image_limited] is not an argument of it. *)
Lemma full_prediction_table
    (w : world E) (acc total_time : Q) (cmap gmap : ndarray Z) :
  let r := run (model_train_test hsi_image gt hsi_image_limited
                                 test_size random_state) w in
  outcome r = inr (acc, total_time, cmap, gmap) ->
  exists fitted X_test y_pred y_pred_full,
    collect (@predict_call _) (log_of r) =
      [(fitted, X_test, inr y_pred);
       (fitted, mk_ndarray [H * W; B] (data hsi_image), inr y_pred_full)] /\
    collect (@report_call _) (log_of r) = [(ravel gt, y_pred_full)] /\
    collect (@confusion_call _) (log_of r) = [(ravel gt, y_pred_full)] /\
    cmap = mk_ndarray [H; W] (data y_pred_full).
Proof.
  intros r Hout. subst r.
  destruct (model_train_test_complete _ Hout)
    as (X_train & X_test & y_train & y_test & start & fitted & end_ & y_pred
        & y_pred_full & report & cm & Hlog & _ & Hmap & _).
  exists fitted, X_test, y_pred, y_pred_full.
  rewrite Hlog. repeat split. exact Hmap.
Qed.

End TrainTest.

(* ===================================================================== *)
(** ** The whole pipeline *)
(* ===================================================================== *)

Section WholeRun.

Context {E : Env}.

Variables (hsi_image : ndarray Q) (gt : ndarray Z) (n_components : nat).
Variables (H W B : nat).
Hypothesis cube_shape : shape hsi_image = [H; W; B].

(** A run of [ICA] that returns has standardized the flattened cube, reduced
    it, and handed the reduced table to [model_train_test] with test
    fraction 0.2 and seed 42. *)
Lemma ICA_returns (w : world E) (x : Q * Q * ndarray Z * ndarray Z) :
  outcome (run (ICA hsi_image gt n_components) w) = inr x ->
  let flat := mk_ndarray [H * W; B] (data hsi_image) in
  exists scaled limited w1 w2,
    n_components <= B /\
    respond E (StandardScaler_fit_transform flat) w = (inr scaled, w1) /\
    respond E (FastICA_fit_transform n_components (Some 42%Z) scaled) w1
      = (inr limited, w2) /\
    outcome (run (model_train_test hsi_image gt limited (1 # 5) 42) w2)
      = inr x /\
    log_of (run (ICA hsi_image gt n_components) w) =
      [ Called (StandardScaler_fit_transform flat) (inr scaled);
        Called (FastICA_fit_transform n_components (Some 42%Z) scaled)
               (inr limited);
        Printed [Str "Shape of data after ICA reduction: ";
                 Dims (shape limited)] ]
      ++ log_of (run (model_train_test hsi_image gt limited (1 # 5) 42) w2).
Proof.
  intros Hout flat. revert Hout. unfold ICA. enter_cube cube_shape. fold flat.
  destruct (respond E (StandardScaler_fit_transform flat) w)
    as [[e|scaled] w1]; script_simpl; [discriminate|].
  destruct (B <? n_components) eqn:Hn; script_simpl; [discriminate|].
  destruct (respond E (FastICA_fit_transform _ _ scaled) w1)
    as [[e|limited] w2] eqn:Hica; script_simpl; [discriminate|].
  destruct (model_train_test hsi_image gt limited (1 # 5) 42 w2)
    as [o wf l] eqn:Hm.
  script_simpl. intros ->.
  exists scaled, limited, w1, w2. rewrite Hm. script_simpl.
  apply Nat.ltb_ge in Hn. repeat split; auto.
Qed.

(** C6: flattening a cube of shape [(H, W, B)] to [(H * W, B)] keeps the
    elements in place, pixel [(i, j)] becoming row [i * W + j], and reshaping
    back gives the cube again; a vector of [H * W] labels reshaped to
    [(H, W)] has at [(i, j)] its entry [i * W + j]; and the ground-truth map
    the pipeline returns is the ground-truth grid it was given. *)
Theorem flatten_then_reshape_is_identity
    (w : world E) (acc total_time : Q) (cmap gmap : ndarray Z) :
  shape gt = [H; W] ->
  let flat := mk_ndarray [H * W; B] (data hsi_image) in
  reshape hsi_image [H * W; B] = inr flat /\
  reshape flat [H; W; B] = inr hsi_image /\
  (forall i j b, i < H -> j < W -> b < B ->
     item flat [i * W + j; b] = item hsi_image [i; j; b]) /\
  (forall v : ndarray Z, shape v = [H * W] ->
     reshape v [H; W] = inr (mk_ndarray [H; W] (data v)) /\
     forall i j, i < H -> j < W ->
       item (mk_ndarray [H; W] (data v)) [i; j] = item v [i * W + j]) /\
  (outcome (run (ICA hsi_image gt n_components) w)
     = inr (acc, total_time, cmap, gmap) ->
   gmap = gt).
Proof.
  intros Hgt flat. repeat split.
  - apply reshape_table, cube_shape.
  - rewrite <- cube_shape. unfold reshape, size. cbn [shape data flat].
    rewrite cube_shape. cbn [prod_dims fold_right].
    replace (H * (W * (B * 1)) =? H * W * (B * 1)) with true
      by (symmetry; apply Nat.eqb_eq; lia).
    rewrite <- cube_shape. destruct hsi_image; reflexivity.
  - intros i j b Hi Hj Hb. apply item_flattened; assumption.
  - unfold reshape, size. rewrite H0. cbn [prod_dims fold_right].
    replace (H * (W * 1) =? H * W * 1) with true
      by (symmetry; apply Nat.eqb_eq; lia).
    reflexivity.
  - intros i j Hi Hj. apply item_grid; assumption.
  - intros Hout. apply ICA_returns in Hout.
    destruct Hout as (scaled & limited & w1 & w2 & _ & _ & _ & Hout & _).
    apply model_train_test_complete with (H := H) (W := W) (B := B) in Hout;
      [|exact cube_shape].
    destruct Hout as (? & ? & ? & ? & ? & ? & ? & ? & ? & ? & ? & _ & _ & _ & -> & _).
    rewrite <- Hgt. destruct gt; reflexivity.
Qed.

(** C7: in an environment that honours the reproducibility contract of the
    seeded calls, two runs on the same cube and labels, started in any two
    worlds, ask the reducer and the split for the same things and get the same
    reduced table and the same train and test parts. *)
Theorem seeded_runs_agree (w1 w2 : world E) :
  reproducible E ->
  let r1 := run (ICA hsi_image gt n_components) w1 in
  let r2 := run (ICA hsi_image gt n_components) w2 in
  collect (@ica_call _) (log_of r1) = collect (@ica_call _) (log_of r2) /\
  collect (@split_call _) (log_of r1) = collect (@split_call _) (log_of r2).
Proof.
  intros Hrep r1 r2. subst r1 r2. unfold ICA. enter_cube cube_shape.
  set (flat := mk_ndarray [H * W; B] (data hsi_image)).
  pose proof (Hrep _ (StandardScaler_fit_transform flat) w1 w2 eq_refl) as Hs.
  destruct (respond E (StandardScaler_fit_transform flat) w1) as [a1 v1].
  destruct (respond E (StandardScaler_fit_transform flat) w2) as [a2 v2].
  cbn [fst] in Hs. subst a2.
  destruct a1 as [e|scaled]; script_simpl; [split; reflexivity|].
  destruct (B <? n_components); script_simpl; [split; reflexivity|].
  pose proof (Hrep _ (FastICA_fit_transform n_components (Some 42%Z) scaled)
                v1 v2 eq_refl) as Hi.
  destruct (respond E (FastICA_fit_transform _ _ scaled) v1) as [b1 u1].
  destruct (respond E (FastICA_fit_transform _ _ scaled) v2) as [b2 u2].
  cbn [fst] in Hi. subst b2.
  destruct b1 as [e|limited]; script_simpl; [split; reflexivity|].
  pose proof (@split_log E hsi_image gt limited (1 # 5) 42%Z H W B cube_shape u1) as S1.
  pose proof (@split_log E hsi_image gt limited (1 # 5) 42%Z H W B cube_shape u2) as S2.
  pose proof (@reduction_log E hsi_image gt limited (1 # 5) 42%Z H W B cube_shape u1) as I1.
  pose proof (@reduction_log E hsi_image gt limited (1 # 5) 42%Z H W B cube_shape u2) as I2.
  rewrite (Hrep _ (train_test_split limited (ravel gt) (Some (ravel gt))
                     (1 # 5) (Some 42%Z)) u1 u2 eq_refl) in S1.
  unfold run in S1, S2, I1, I2.
  destruct (model_train_test hsi_image gt limited (1 # 5) 42 u1) as [o1 x1 l1].
  destruct (model_train_test hsi_image gt limited (1 # 5) 42 u2) as [o2 x2 l2].
  cbn [log_of] in *. cbn [collect ica_call split_call].
  rewrite S1, S2, I1, I2. split; reflexivity.
Qed.

End WholeRun.

(* ===================================================================== *)
(** ** The reference environment *)
(* ===================================================================== *)

(** *** Standardization *)



























(** *** The stratified split names the undersized class *)

Lemma In_insert_unique x z l : In x (insert_unique z l) <-> x = z \/ In x l.
Proof.
  induction l as [|y l IH]; cbn [insert_unique].
  - cbn. intuition.
  - destruct (Z.ltb_spec z y); [cbn; intuition|].
    destruct (Z.eqb_spec z y) as [->|Hne]; cbn; [intuition|].
    rewrite IH. intuition.
Qed.

Lemma In_classes_of x y : In x (classes_of y) <-> In x y.
Proof.
  unfold classes_of. induction y as [|z y IH]; cbn [fold_right]; [reflexivity|].
  rewrite In_insert_unique, IH. cbn. intuition.
Qed.

Lemma undersized_class_found y c :
  class_count y c = 1 ->
  exists c', undersized_class y = Some c' /\ In c' y /\ class_count y c' < 2.
Proof.
  intros Hc. unfold undersized_class.
  destruct (find _ (classes_of y)) as [c'|] eqn:Hf.
  - apply find_some in Hf. destruct Hf as [Hin Hlt].
    exists c'. repeat split.
    + apply In_classes_of, Hin.
    + apply Nat.ltb_lt, Hlt.
  - exfalso. apply find_none with (x := c) in Hf.
    + rewrite Hc in Hf. discriminate.
    + apply In_classes_of. apply (count_occ_In Z.eq_dec).
      unfold class_count in Hc. lia.
Qed.

(** C5: when a class of the grid has a single pixel, the stratified split
    of the reference environment fails with a [ValueError] whose message ends
    in the name of a class with fewer than two pixels; [model_train_test]
    asked for the stratified split once, for nothing else, and the error is
    its outcome. *)
Theorem undersized_class_is_named
    (w : ref_world) (hsi_image : ndarray Q) (gt : ndarray Z)
    (hsi_image_limited : ndarray Q) (test_size : Q) (random_state : Z)
    (H W B : nat) (c : Z) :
  shape hsi_image = [H; W; B] ->
  nth 0 (shape hsi_image_limited) 0 = List.length (data gt) ->
  class_count (data gt) c = 1 ->
  exists c',
    In c' (data gt) /\ class_count (data gt) c' < 2 /\
    let e := ValueError
      ("The least populated class in y has too few members: class "
       ++ string_of_Z c') in
    let r := run (E := ref_env)
               (model_train_test hsi_image gt hsi_image_limited
                                 test_size random_state) w in
    outcome r = inl e /\
    log_of r =
      [Called (train_test_split hsi_image_limited (ravel gt) (Some (ravel gt))
                                test_size (Some random_state))
              (inl e)].
Proof.
  intros Hs Hrows Hc.
  destruct (@undersized_class_found (data gt) c Hc) as (c' & Hu & Hin & Hlt).
  exists c'. split; [exact Hin|]. split; [exact Hlt|].
  unfold model_train_test. enter_cube Hs.
  cbn [respond ref_env ref_respond seed_for].
  unfold split_arrays. cbn [data ravel]. rewrite Hrows, Nat.eqb_refl.
  cbn [negb]. rewrite Hu. script_simpl. split; reflexivity.
Qed.

(** *** Saving the figure *)

Lemma lookup_written fs path content :
  lookup_file (write_file fs path content) path = Some content.
Proof.
  unfold lookup_file, write_file. cbn. rewrite String.eqb_refl. reflexivity.
Qed.

Lemma lookup_other fs path content other :
  other <> path ->
  lookup_file (write_file fs path content) other = lookup_file fs other.
Proof.
  intros Hne. unfold lookup_file, write_file. cbn [find fst].
  destruct (String.eqb_spec path other) as [->|_]; [congruence|].
  f_equal. induction fs as [|[p c] fs IH]; cbn; [reflexivity|].
  destruct (String.eqb_spec p path) as [->|Hp]; cbn.
  - destruct (String.eqb_spec path other); [congruence | exact IH].
  - destruct (String.eqb p other); [reflexivity | exact IH].
Qed.

(** C9, as the code has it: [visualize_classification_map] returns nothing.
    When no plotting call fails its log is [figure_log]: one figure, two
    panels (ground truth left, classification right), one [savefig], to
    [{dataset_name}_classification_vs_ground_truth.png], and the path only
    printed.  In the reference environment the call never fails, that path
    then holds the two panels whatever was there, and no other file is
    touched. *)
Theorem figure_is_saved_once
    (E : Env) (w : world E) (wr : ref_world)
    (classification_map ground_truth_map : ndarray Z) (dataset_name : string) :
  (outcome (run (visualize_classification_map classification_map
                   ground_truth_map dataset_name) w) = inr tt ->
   log_of (run (visualize_classification_map classification_map
                  ground_truth_map dataset_name) w)
     = figure_log classification_map ground_truth_map dataset_name) /\
  (let r := run (E := ref_env)
              (visualize_classification_map classification_map
                 ground_truth_map dataset_name) wr in
   let path := (dataset_name ++ "_classification_vs_ground_truth.png")%string in
   outcome r = inr tt /\
   lookup_file (files (world_of r)) path
     = Some (two_panels classification_map ground_truth_map dataset_name) /\
   forall other, other <> path ->
     lookup_file (files (world_of r)) other = lookup_file (files wr) other).
Proof.
  split.
  - unfold visualize_classification_map, figure_log, figure_file.
    open_script.
    repeat (next_answer; script_simpl); try discriminate.
    intros _. repeat match goal with u : unit |- _ => destruct u end.
    reflexivity.
  - cbn zeta. unfold visualize_classification_map, figure_file.
    open_script. cbn [respond ref_env ref_respond draw canvas files app].
    script_simpl. cbn [files].
    split; [reflexivity|]. split.
    + apply lookup_written.
    + intros other Hne. apply lookup_other, Hne.
Qed.

Lemma ref_env_reproducible : reproducible ref_env.
Proof.
  intros X c w1 w2 Hc.
  destruct c; try discriminate; cbn in *.
  - reflexivity.
  - destruct random_state; [reflexivity | discriminate].
  - destruct random_state; [reflexivity | discriminate].
Qed.

(** Without an integer seed the answers of the reference environment do
    depend on the world, so the contract is not an empty one. *)
Example unseeded_answers_differ :
  fst (respond ref_env (FastICA_fit_transform 1 None demo_raw) ref_start)
  <> fst (respond ref_env (FastICA_fit_transform 1 None demo_raw) other_world).
Proof. vm_compute. discriminate. Qed.

(* ===================================================================== *)
(** ** Runs on the small data set *)
(* ===================================================================== *)

(** C1: the code does not do what the claim says.  On the ten-pixel cube
    with two components, the reducer returns a table of shape [(10, 2)] and
    the classifier is fitted on two features; the full-map prediction then
    hands that classifier the raw bands, shape [(10, 3)].  The report, the
    confusion matrix and the returned classification map are computed from
    this prediction. *)
Theorem full_map_is_predicted_from_raw_bands :
  let r := run (E := ref_env) (ICA demo_cube demo_gt 2) ref_start in
  let y_pred_full := mk_ndarray [10] (repeat 0%Z 10) in
  map (fun c => match snd c with inr t => shape t | inl _ => [] end)
      (collect (@ica_call _) (log_of r)) = [[10; 2]] /\
  nth_error (collect (@predict_call _) (log_of r)) 1 =
    Some ({| n_features := 2; answer := 0 |}, demo_raw, inr y_pred_full) /\
  collect (@report_call _) (log_of r) = [(ravel demo_gt, y_pred_full)] /\
  collect (@confusion_call _) (log_of r) = [(ravel demo_gt, y_pred_full)] /\
  outcome r = inr (1 # 2, 1%Q, mk_ndarray [2; 5] (repeat 0%Z 10), demo_gt).
Proof. vm_compute. repeat split. Qed.

(** C2 fails as stated: with four components asked of a three-band cube,
    the standardization of the flattened cube is in the log when the
    [ValueError] is raised. *)
Lemma ICA_standardizes_before_rejecting :
  let r := run (E := ref_env) (ICA demo_cube demo_gt 4) ref_start in
  collect (@scaler_call _) (log_of r) = [demo_raw] /\
  outcome r = inl (ValueError
    "Number of components exceeds the number of bands in the image.").
Proof. vm_compute. split; reflexivity. Qed.

(** C4 fails as stated: the two test pixels of the run carry the labels 0
    and 1; the background pixel is scored, and it is the one predicted
    right, which makes the accuracy 1/2. *)
Lemma test_accuracy_counts_background_pixels :
  let r := run (E := ref_env) (ICA demo_cube demo_gt 2) ref_start in
  collect (@accuracy_call _) (log_of r) =
    [(mk_ndarray [2] [0; 1]%Z, mk_ndarray [2] [0; 0]%Z, inr (1 # 2))] /\
  outcome r = inr (1 # 2, 1%Q, mk_ndarray [2; 5] (repeat 0%Z 10), demo_gt).
Proof. vm_compute. split; reflexivity. Qed.

(** C9 fails as stated: the renderer saves the figure and returns [None],
    not the path. *)
Lemma visualize_returns_none :
  let r := run (E := ref_env)
             (visualize_classification_map demo_gt demo_gt "Salinas")
             ref_start in
  outcome r = inr tt /\
  collect (@savefig_call _) (log_of r) =
    ["Salinas_classification_vs_ground_truth.png"].
Proof. vm_compute. split; reflexivity. Qed.

(* ===================================================================== *)
(** ** The theorems at work *)
(* ===================================================================== *)

Lemma ICA_rejects_before_reduction_demo :
  shape demo_cube = [2; 5; 3] /\ 3 < 4 /\
  log_of (run (E := ref_env) (ICA demo_cube demo_gt 4) ref_start) =
    [Called (StandardScaler_fit_transform demo_raw)
            (fst (respond ref_env (StandardScaler_fit_transform demo_raw)
                    ref_start))].
Proof.
  split; [reflexivity|]. split; [lia|].
  destruct (@ICA_rejects_before_reduction ref_env ref_start demo_cube demo_gt
              4 2 5 3 eq_refl ltac:(lia)) as [Hlog _].
  exact Hlog.
Defined.

Lemma fit_validates_on_test_split_demo :
  exists X_train X_test y_train y_test,
    shape demo_cube = [2; 5; 3] /\
    fst (respond ref_env
           (train_test_split demo_limited (ravel demo_gt)
              (Some (ravel demo_gt)) (1 # 5) (Some 42%Z)) ref_start)
      = inr (X_train, X_test, y_train, y_test) /\
    y_test = mk_ndarray [2] [0; 1]%Z /\
    collect (@fit_call _)
      (log_of (run (E := ref_env)
                 (model_train_test demo_cube demo_gt demo_limited (1 # 5) 42)
                 ref_start))
      = [(catboost_params 42, X_train, y_train, Some (X_test, y_test))].
Proof.
  do 4 eexists. split; [reflexivity|]. split; [vm_compute; reflexivity|].
  split; [reflexivity|].
  apply (@fit_validates_on_test_split ref_env demo_cube demo_gt demo_limited
           (1 # 5) 42%Z 2 5 3 eq_refl ref_start).
  vm_compute. reflexivity.
Defined.

Lemma accuracy_is_scored_on_test_split_demo :
  outcome (run (E := ref_env)
             (model_train_test demo_cube demo_gt demo_limited (1 # 5) 42)
             ref_start)
    = inr (1 # 2, 1%Q, mk_ndarray [2; 5] (repeat 0%Z 10), demo_gt) /\
  exists X_train X_test y_train y_test fitted y_pred,
    collect (@split_call _)
      (log_of (run (E := ref_env)
                 (model_train_test demo_cube demo_gt demo_limited (1 # 5) 42)
                 ref_start)) =
      [(demo_limited, ravel demo_gt, Some (ravel demo_gt), 1 # 5, Some 42%Z,
        inr (X_train, X_test, y_train, y_test))] /\
    nth_error
      (collect (@predict_call _)
         (log_of (run (E := ref_env)
                    (model_train_test demo_cube demo_gt demo_limited (1 # 5) 42)
                    ref_start))) 0 = Some (fitted, X_test, inr y_pred) /\
    collect (@accuracy_call _)
      (log_of (run (E := ref_env)
                 (model_train_test demo_cube demo_gt demo_limited (1 # 5) 42)
                 ref_start)) = [(y_test, y_pred, inr (1 # 2))].
Proof.
  split; [vm_compute; reflexivity|].
  apply (@accuracy_is_scored_on_test_split ref_env demo_cube demo_gt
           demo_limited (1 # 5) 42%Z 2 5 3 eq_refl ref_start
           (1 # 2) 1%Q (mk_ndarray [2; 5] (repeat 0%Z 10)) demo_gt).
  vm_compute. reflexivity.
Defined.

Lemma undersized_class_is_named_demo :
  shape demo_cube = [2; 5; 3] /\
  nth 0 (shape demo_limited) 0 = List.length (data lonely_gt) /\
  class_count (data lonely_gt) 2 = 1 /\
  exists c',
    In c' (data lonely_gt) /\ class_count (data lonely_gt) c' < 2 /\
    outcome (run (E := ref_env)
               (model_train_test demo_cube lonely_gt demo_limited (1 # 5) 42)
               ref_start)
      = inl (ValueError
               ("The least populated class in y has too few members: class "
                ++ string_of_Z c')).
Proof.
  split; [reflexivity|]. split; [reflexivity|]. split; [reflexivity|].
  destruct (@undersized_class_is_named ref_start demo_cube lonely_gt
              demo_limited (1 # 5) 42%Z 2 5 3 2%Z eq_refl eq_refl eq_refl)
    as (c' & Hin & Hlt & Hout & _).
  exists c'. split; [exact Hin|]. split; [exact Hlt | exact Hout].
Defined.

Lemma flatten_then_reshape_is_identity_demo :
  shape demo_cube = [2; 5; 3] /\ shape demo_gt = [2; 5] /\
  outcome (run (E := ref_env) (ICA demo_cube demo_gt 2) ref_start)
    = inr (1 # 2, 1%Q, mk_ndarray [2; 5] (repeat 0%Z 10), demo_gt) /\
  reshape demo_raw [2; 5; 3] = inr demo_cube /\
  item demo_raw [1 * 5 + 2; 1] = item demo_cube [1; 2; 1].
Proof.
  split; [reflexivity|]. split; [reflexivity|].
  split; [vm_compute; reflexivity|].
  destruct (@flatten_then_reshape_is_identity ref_env demo_cube demo_gt 2
              2 5 3 eq_refl ref_start (1 # 2) 1%Q
              (mk_ndarray [2; 5] (repeat 0%Z 10)) demo_gt eq_refl)
    as (_ & Hback & Hitem & _).
  split; [exact Hback|]. apply Hitem; lia.
Defined.

Lemma seeded_runs_agree_demo :
  reproducible ref_env /\ shape demo_cube = [2; 5; 3] /\
  collect (@split_call _)
    (log_of (run (E := ref_env) (ICA demo_cube demo_gt 2) ref_start)) =
  collect (@split_call _)
    (log_of (run (E := ref_env) (ICA demo_cube demo_gt 2) other_world)).
Proof.
  split; [exact ref_env_reproducible|]. split; [reflexivity|].
  exact (proj2 (@seeded_runs_agree ref_env demo_cube demo_gt 2 2 5 3 eq_refl
                  ref_start other_world ref_env_reproducible)).
Defined.


Lemma figure_is_saved_once_demo :
  outcome (run (E := ref_env)
             (visualize_classification_map demo_gt demo_gt "Salinas")
             other_world) = inr tt /\
  log_of (run (E := ref_env)
            (visualize_classification_map demo_gt demo_gt "Salinas")
            other_world) = figure_log demo_gt demo_gt "Salinas" /\
  lookup_file
    (files (world_of (run (E := ref_env)
                        (visualize_classification_map demo_gt demo_gt "Salinas")
                        other_world)))
    "Salinas_classification_vs_ground_truth.png"
    = Some (two_panels demo_gt demo_gt "Salinas").
Proof.
  destruct (@figure_is_saved_once ref_env other_world other_world
              demo_gt demo_gt "Salinas") as (Hlog & Hout & Hfile & _).
  split; [exact Hout|]. split; [exact (Hlog Hout) | exact Hfile].
Defined.

Lemma background_pixels_are_ordinary_demo :
  shape demo_cube = [2; 5; 3] /\
  outcome (run (E := ref_env)
             (model_train_test demo_cube demo_gt demo_limited (1 # 5) 42)
             ref_start)
    = inr (1 # 2, 1%Q, mk_ndarray [2; 5] (repeat 0%Z 10), demo_gt) /\
  (exists y_pred_full,
     collect (@report_call _)
       (log_of (run (E := ref_env)
                  (model_train_test demo_cube demo_gt demo_limited (1 # 5) 42)
                  ref_start)) = [(ravel demo_gt, y_pred_full)]) /\
  count_occ Z.eq_dec (data (ravel demo_gt)) 0%Z = 5.
Proof.
  assert (outcome (run (E := ref_env)
                     (model_train_test demo_cube demo_gt demo_limited
                                       (1 # 5) 42) ref_start)
          = inr (1 # 2, 1%Q, mk_ndarray [2; 5] (repeat 0%Z 10), demo_gt))
    as Hout by (vm_compute; reflexivity).
  split; [reflexivity|]. split; [exact Hout|].
  destruct (@background_pixels_are_ordinary ref_env demo_cube demo_gt
              demo_limited (1 # 5) 42%Z 2 5 3 eq_refl ref_start)
    as (_ & _ & _ & _ & _ & _ & Hreturns).
  destruct (Hreturns _ _ _ _ Hout)
    as (X_train & X_test & y_train & y_test & y_pred & y_pred_full
        & _ & _ & _ & Hreport & _).
  split; [exists y_pred_full; exact Hreport | reflexivity].
Defined.

(* ===================================================================== *)
(** ** Further properties of the pipeline *)
(* ===================================================================== *)

(** Case analysis that also covers a cube of any rank. *)
Ltac next_any :=
  first [ next_answer
        | match goal with
          | |- context [shape_at ?a ?k] => destruct (shape_at a k)
          end ].

Ltac walk_any := open_script; repeat (next_any; script_simpl).

Section Stages.

Context {E : Env}.

Variables (hsi_image : ndarray Q) (gt : ndarray Z).
Variables (H W B : nat).
Hypothesis cube_shape : shape hsi_image = [H; W; B].

(** [model_train_test] never calls the scaler. *)
Lemma scaler_log (hsi_image_limited : ndarray Q) (test_size : Q)
    (random_state : Z) (w : world E) :
  collect (@scaler_call _)
    (log_of (run (model_train_test hsi_image gt hsi_image_limited
                                   test_size random_state) w)) = [].
Proof.
  unfold model_train_test. enter_cube cube_shape.
  repeat (next_answer; script_simpl); reflexivity.
Qed.

(** X1: the stages feed each other.  When the scaler and the reducer answer
    and [n_components] does not exceed the number of bands (it may equal
    it), the scaler was given the whole flattened cube, the reducer what the
    scaler returned, with seed 42, and the split what the reducer returned,
    with every label as stratification key, test fraction 0.2 and seed 42;
    each is called once. *)
Theorem pipeline_chains_its_stages
    (n_components : nat) (w w1 w2 : world E) (scaled limited : ndarray Q) :
  let flat := mk_ndarray [H * W; B] (data hsi_image) in
  respond E (StandardScaler_fit_transform flat) w = (inr scaled, w1) ->
  n_components <= B ->
  respond E (FastICA_fit_transform n_components (Some 42%Z) scaled) w1
    = (inr limited, w2) ->
  let r := run (ICA hsi_image gt n_components) w in
  collect (@scaler_call _) (log_of r) = [flat] /\
  collect (@ica_call _) (log_of r)
    = [(n_components, Some 42%Z, scaled, inr limited)] /\
  collect (@split_call _) (log_of r)
    = [(limited, ravel gt, Some (ravel gt), 1 # 5, Some 42%Z,
        fst (respond E (train_test_split limited (ravel gt) (Some (ravel gt))
                          (1 # 5) (Some 42%Z)) w2))].
Proof.
  intros flat Hscale Hn Hica r. subst r. unfold ICA.
  enter_cube cube_shape. fold flat. rewrite Hscale. script_simpl.
  apply Nat.ltb_ge in Hn. rewrite Hn. rewrite Hica. script_simpl.
  pose proof (@scaler_log limited (1 # 5) 42%Z w2) as Hs.
  pose proof (@reduction_log E hsi_image gt limited (1 # 5) 42%Z H W B
                cube_shape w2) as Hr.
  pose proof (@split_log E hsi_image gt limited (1 # 5) 42%Z H W B
                cube_shape w2) as Hp.
  unfold run in Hs, Hr, Hp.
  destruct (model_train_test hsi_image gt limited (1 # 5) 42 w2) as [o x l].
  cbn [log_of] in *. cbn [collect scaler_call ica_call split_call].
  rewrite Hs, Hr, Hp. repeat split.
Qed.

Variables (hsi_image_limited : ndarray Q) (test_size : Q) (random_state : Z).

(** X2: the training time that [model_train_test] returns is the difference
    of the only two clock readings of the run, taken immediately before and
    immediately after the fit; splitting, predicting and scoring are not
    timed. *)
Theorem training_time_brackets_fit
    (w : world E) (acc total_time : Q) (cmap gmap : ndarray Z) :
  let r := run (model_train_test hsi_image gt hsi_image_limited
                                 test_size random_state) w in
  outcome r = inr (acc, total_time, cmap, gmap) ->
  exists start end_ fitted X_train y_train eval_set before after,
    log_of r =
      before
      ++ [ Clock start;
           Called (CatBoost_fit (catboost_params random_state)
                                X_train y_train eval_set) (inr fitted);
           Clock end_ ]
      ++ after /\
    collect (@clock_reading _) (log_of r) = [start; end_] /\
    total_time = (end_ - start)%Q.
Proof.
  intros r Hout. subst r.
  apply model_train_test_complete with (H := H) (W := W) (B := B) in Hout;
    [|exact cube_shape].
  destruct Hout
    as (X_train & X_test & y_train & y_test & start & fitted & end_ & y_pred
        & y_pred_full & report & cm & Hlog & Htime & _).
  exists start, end_, fitted, X_train, y_train, (Some (X_test, y_test)).
  rewrite Hlog. unfold complete_log.
  eexists [_; _; _], _. repeat split. exact Htime.
Qed.

(** X3: whatever the shape the labels came in, a run that returns gives two
    maps of the spatial extent [(H, W)] of the cube: the labels in their
    order, of which there are exactly [H * W], and the elements of the
    full-map prediction, of which there are exactly [H * W] as well. *)
Theorem returned_maps_have_cube_extent
    (w : world E) (acc total_time : Q) (cmap gmap : ndarray Z) :
  let r := run (model_train_test hsi_image gt hsi_image_limited
                                 test_size random_state) w in
  outcome r = inr (acc, total_time, cmap, gmap) ->
  shape cmap = [H; W] /\ shape gmap = [H; W] /\
  data gmap = data gt /\ size gt = H * W /\
  exists fitted y_pred_full,
    In (fitted, mk_ndarray [H * W; B] (data hsi_image), inr y_pred_full)
       (collect (@predict_call _) (log_of r)) /\
    data cmap = data y_pred_full /\ size y_pred_full = H * W.
Proof.
  intros r. subst r. unfold model_train_test. enter_cube cube_shape.
  repeat (next_answer; script_simpl); try discriminate.
  intros [= <- <- <- <-].
  match goal with
  | Hg : reshape gt _ = inr _, Hp : reshape _ _ = inr _ |- _ =>
      apply reshape_inr in Hg, Hp;
      destruct Hg as [-> Hsize], Hp as [-> Hpred]
  end.
  cbn [prod_dims fold_right] in Hsize, Hpred.
  cbn [shape data collect predict_call].
  repeat split; try lia.
  do 2 eexists. split; [right; left; reflexivity|]. split; [reflexivity|lia].
Qed.

End Stages.

Section Propagation.

Context {E : Env}.

(** X4: a cube with fewer than three axes stops [ICA] and
    [model_train_test] with numpy's [IndexError] before any library call. *)
Theorem needs_three_axes
    (w : world E) (hsi_image : ndarray Q) (gt : ndarray Z)
    (hsi_image_limited : ndarray Q) (n_components : nat)
    (test_size : Q) (random_state : Z) :
  List.length (shape hsi_image) < 3 ->
  let e := IndexError "tuple index out of range" in
  let r1 := run (ICA hsi_image gt n_components) w in
  let r2 := run (model_train_test hsi_image gt hsi_image_limited
                                  test_size random_state) w in
  (outcome r1 = inl e /\ log_of r1 = []) /\
  (outcome r2 = inl e /\ log_of r2 = []).
Proof.
  intros Hlen e r1 r2. subst e r1 r2.
  unfold ICA, model_train_test, shape_at.
  destruct (shape hsi_image) as [|a [|b [|c rest]]];
    cbn [List.length] in Hlen; try lia;
    open_script; repeat split.
Qed.

(** X5: a cube with further axes that change its size cannot be flattened
    to [(H * W, B)]: [ICA] stops with a [ValueError] before any library
    call. *)
Theorem unflattenable_cube_is_rejected
    (w : world E) (hsi_image : ndarray Q) (gt : ndarray Z)
    (n_components H W B : nat) (rest : list nat) :
  shape hsi_image = H :: W :: B :: rest ->
  size hsi_image <> H * W * B ->
  let r := run (ICA hsi_image gt n_components) w in
  (exists msg, outcome r = inl (ValueError msg)) /\ log_of r = [].
Proof.
  intros Hs Hsize r. subst r. unfold ICA, shape_at. rewrite Hs.
  cbn [nth_error]. open_script. unfold reshape.
  cbn [prod_dims fold_right].
  destruct (Nat.eqb_spec (H * W * (B * 1)) (size hsi_image)) as [Heq|_].
  - exfalso. apply Hsize. lia.
  - script_simpl. split; [eexists; reflexivity | reflexivity].
Qed.

(** X6: [ICA] swallows no exception and does nothing after one.  A run that
    returns has no failed call in its log; if a call failed, it is the only
    failed call and the last entry of the log, and its exception is the
    outcome of the run. *)
Theorem ICA_propagates_failures
    (w : world E) (hsi_image : ndarray Q) (gt : ndarray Z)
    (n_components : nat) :
  let r := run (ICA hsi_image gt n_components) w in
  (forall x, outcome r = inr x ->
     collect (@failure_of _) (log_of r) = []) /\
  (forall e, In e (collect (@failure_of _) (log_of r)) ->
     outcome r = inl e /\
     collect (@failure_of _) (log_of r) = [e] /\
     failure_of (last (log_of r) (Printed [])) = Some e).
Proof.
  intros r. subst r. unfold ICA, model_train_test.
  walk_any;
    try (destruct (_ <? _); script_simpl);
    repeat (next_any; script_simpl);
    cbn [collect failure_of last];
    (split; [intros; first [reflexivity | discriminate]|]);
    (let x := fresh "raised" in
     intros x Hin; cbn [In] in Hin;
     repeat (destruct Hin as [Hin|Hin]; try subst x));
    try contradiction; repeat split.
Qed.

End Propagation.

(* ===================================================================== *)
(** ** Further properties of the renderer *)
(* ===================================================================== *)

Lemma length_append (a s : string) :
  String.length (a ++ s) = String.length a + String.length s.
Proof. induction a as [|c a IH]; cbn; [reflexivity | rewrite IH; reflexivity]. Qed.

Lemma append_cancel_r (a b s : string) :
  (a ++ s = b ++ s)%string -> a = b.
Proof.
  revert b. induction a as [|c a IH]; intros [|d b] Heq.
  - reflexivity.
  - apply (f_equal String.length) in Heq. cbn in Heq.
    rewrite length_append in Heq. lia.
  - apply (f_equal String.length) in Heq. cbn in Heq.
    rewrite length_append in Heq. lia.
  - cbn in Heq. injection Heq as -> Heq. f_equal. apply IH, Heq.
Qed.

Section Rendering.

Context {E : Env}.

Variables (classification_map ground_truth_map : ndarray Z).
Variable dataset_name : string.

(** A rendering that returns has logged [figure_log]. *)
Lemma visualize_complete (w : world E) (u : unit) :
  outcome (run (visualize_classification_map classification_map
                  ground_truth_map dataset_name) w) = inr u ->
  log_of (run (visualize_classification_map classification_map
                 ground_truth_map dataset_name) w)
    = figure_log classification_map ground_truth_map dataset_name.
Proof.
  unfold visualize_classification_map, figure_log, figure_file.
  open_script.
  repeat (next_answer; script_simpl); try discriminate.
  intros _. repeat match goal with v : unit |- _ => destruct v end.
  reflexivity.
Qed.

(** The renderer asks for at most one file, and for that one. *)
Lemma visualize_savefig_paths (w : world E) :
  let r := run (visualize_classification_map classification_map
                  ground_truth_map dataset_name) w in
  collect (@savefig_call _) (log_of r) = [] \/
  collect (@savefig_call _) (log_of r) = [figure_file dataset_name].
Proof.
  unfold visualize_classification_map. open_script.
  repeat (next_answer; script_simpl); cbn [collect savefig_call]; auto.
Qed.

(** X7: the line "Figure saved as ..." never lies and failures are not
    hidden.  The renderer prints nothing else, and prints that line only
    after [savefig] returned for the path it names, in a run that returns;
    when a plotting call raises, nothing is printed, the failed call is the
    last entry of the log and its exception is the outcome. *)
Theorem figure_message_is_truthful (w : world E) :
  let r := run (visualize_classification_map classification_map
                  ground_truth_map dataset_name) w in
  let path := (dataset_name ++ "_classification_vs_ground_truth.png")%string in
  (forall line, In line (collect (@printed_line _) (log_of r)) ->
     line = [Str ("Figure saved as " ++ path)] /\
     In (Called (plt_savefig path) (inr tt)) (log_of r) /\
     outcome r = inr tt) /\
  (forall e, outcome r = inl e ->
     collect (@printed_line _) (log_of r) = [] /\
     collect (@failure_of _) (log_of r) = [e] /\
     failure_of (last (log_of r) (Printed [])) = Some e).
Proof.
  intros r path. subst r path.
  unfold visualize_classification_map, figure_file. open_script.
  repeat (next_answer; script_simpl);
    cbn [collect printed_line failure_of last];
    repeat match goal with v : unit |- _ => destruct v end;
    (split;
     [ intros line Hin; cbn [In] in Hin;
       repeat (destruct Hin as [Hin|Hin]; try subst line);
       try contradiction;
       (split; [reflexivity|]); (split; [|reflexivity]);
       cbn [In]; auto 20
     | intros raised Hraised; try discriminate;
       injection Hraised as <-; repeat split ]).
Qed.

(** X8: two data sets of different names are never rendered to the same
    file. *)
Theorem figure_paths_are_distinct
    (w1 w2 : world E) (cm' gm' : ndarray Z) (other_name path : string) :
  dataset_name <> other_name ->
  In path (collect (@savefig_call _)
             (log_of (run (visualize_classification_map classification_map
                             ground_truth_map dataset_name) w1))) ->
  ~ In path (collect (@savefig_call _)
               (log_of (run (visualize_classification_map cm' gm' other_name)
                          w2))).
Proof.
  intros Hne Hin1 Hin2.
  destruct (visualize_savefig_paths w1) as [H1|H1]; rewrite H1 in Hin1;
    [destruct Hin1|].
  destruct Hin1 as [<-|[]].
  unfold visualize_classification_map in Hin2. revert Hin2. open_script.
  repeat (next_answer; script_simpl); cbn [collect savefig_call In];
    intros Hin2; repeat (destruct Hin2 as [Hin2|Hin2]); try contradiction;
    apply Hne; symmetry; exact (append_cancel_r _ _ _ Hin2).
Qed.

End Rendering.

(* ===================================================================== *)
(** ** Properties of the driver *)
(* ===================================================================== *)

Ltac next_stage :=
  match goal with
  | |- context [load_cube ?f ?p ?k] =>
      let Hl := fresh "Hload" in destruct (load_cube f p k) eqn:Hl
  | |- context [load_grid ?f ?p ?k] =>
      let Hl := fresh "Hload" in destruct (load_grid f p k) eqn:Hl
  | |- context [ICA ?a ?b ?n ?w] =>
      let Hi := fresh "Hica" in
      destruct (ICA a b n w) as [[?|[[[? ?] ?] ?]] ? ?] eqn:Hi
  | |- context [visualize_classification_map ?a ?b ?n ?w] =>
      let Hv := fresh "Hvis" in
      destruct (visualize_classification_map a b n w) as [[?|[]] ? ?] eqn:Hv
  end.

Ltac drive := unfold main; open_script; repeat (next_stage; script_simpl).

Section DriverRuns.

Context {E : Env}.

Variable loadmat_cube : string -> exn + list (string * ndarray Q).
Variable loadmat_grid : string -> exn + list (string * ndarray Z).
Variable float_mul : Q -> Q -> Q.

(** X9: the driver reads all eight variables before it computes anything.
    Either the eight reads succeed, or the run has called nothing and printed
    nothing and its outcome is the exception of a failed read: a missing
    last file costs no computation, and no result is produced for the data
    sets whose files were there. *)
Theorem driver_loads_before_anything (w : world E) :
  let r := run (main loadmat_cube loadmat_grid float_mul) w in
  (exists pavia_u pavia_u_gt pavia_c pavia_c_gt salinas salinas_gt
          indian_pines indian_pines_gt,
     load_cube loadmat_cube "src2/PaviaU.mat" "paviaU" = inr pavia_u /\
     load_grid loadmat_grid "src2/PaviaU_gt.mat" "paviaU_gt" = inr pavia_u_gt /\
     load_cube loadmat_cube "src2/Pavia.mat" "pavia" = inr pavia_c /\
     load_grid loadmat_grid "src2/Pavia_gt.mat" "pavia_gt" = inr pavia_c_gt /\
     load_cube loadmat_cube "src2/Salinas.mat" "salinas" = inr salinas /\
     load_grid loadmat_grid "src2/Salinas_gt.mat" "salinas_gt" = inr salinas_gt /\
     load_cube loadmat_cube "src2/Indian_pines.mat" "indian_pines"
       = inr indian_pines /\
     load_grid loadmat_grid "src2/Indian_pines_gt.mat" "indian_pines_gt"
       = inr indian_pines_gt) \/
  (log_of r = [] /\
   exists e, outcome r = inl e /\
     In (Some e)
        [ load_error (load_cube loadmat_cube "src2/PaviaU.mat" "paviaU");
          load_error (load_grid loadmat_grid "src2/PaviaU_gt.mat" "paviaU_gt");
          load_error (load_cube loadmat_cube "src2/Pavia.mat" "pavia");
          load_error (load_grid loadmat_grid "src2/Pavia_gt.mat" "pavia_gt");
          load_error (load_cube loadmat_cube "src2/Salinas.mat" "salinas");
          load_error (load_grid loadmat_grid "src2/Salinas_gt.mat" "salinas_gt");
          load_error (load_cube loadmat_cube "src2/Indian_pines.mat"
                        "indian_pines");
          load_error (load_grid loadmat_grid "src2/Indian_pines_gt.mat"
                        "indian_pines_gt") ]).
Proof.
  intros r. subst r. unfold main. open_script.
  repeat (match goal with
          | |- context [load_cube ?f ?p ?k] =>
              destruct (load_cube f p k) eqn:?
          | |- context [load_grid ?f ?p ?k] =>
              destruct (load_grid f p k) eqn:?
          end; script_simpl);
    try (right; split; [reflexivity|]; eexists; split; [reflexivity|];
         cbn [load_error In]; auto 20).
  left. do 8 eexists. repeat split.
Qed.

(** X10: a run of the driver that returns has processed the four data sets
    in the order of the script, each with ten components, rendered each
    from the two maps its own pipeline returned, under its own name, and
    only then printed the four summary lines, each with the training time
    and with the float product of the accuracy and 100 of its own pipeline,
    to two decimals. *)
Theorem driver_complete (w : world E) :
  let r := run (main loadmat_cube loadmat_grid float_mul) w in
  outcome r = inr tt ->
  exists pavia_u pavia_u_gt pavia_c pavia_c_gt salinas salinas_gt
         indian_pines indian_pines_gt
         acc_u time_u cmap_u gmap_u w_u
         acc_c time_c cmap_c gmap_c w_c
         acc_s time_s cmap_s gmap_s w_s
         acc_i time_i cmap_i gmap_i w_i,
    load_cube loadmat_cube "src2/PaviaU.mat" "paviaU" = inr pavia_u /\
    load_grid loadmat_grid "src2/PaviaU_gt.mat" "paviaU_gt" = inr pavia_u_gt /\
    load_cube loadmat_cube "src2/Pavia.mat" "pavia" = inr pavia_c /\
    load_grid loadmat_grid "src2/Pavia_gt.mat" "pavia_gt" = inr pavia_c_gt /\
    load_cube loadmat_cube "src2/Salinas.mat" "salinas" = inr salinas /\
    load_grid loadmat_grid "src2/Salinas_gt.mat" "salinas_gt" = inr salinas_gt /\
    load_cube loadmat_cube "src2/Indian_pines.mat" "indian_pines"
      = inr indian_pines /\
    load_grid loadmat_grid "src2/Indian_pines_gt.mat" "indian_pines_gt"
      = inr indian_pines_gt /\
    w_u = w /\
    outcome (run (ICA pavia_u pavia_u_gt 10) w_u)
      = inr (acc_u, time_u, cmap_u, gmap_u) /\
    outcome (run (ICA pavia_c pavia_c_gt 10) w_c)
      = inr (acc_c, time_c, cmap_c, gmap_c) /\
    outcome (run (ICA salinas salinas_gt 10) w_s)
      = inr (acc_s, time_s, cmap_s, gmap_s) /\
    outcome (run (ICA indian_pines indian_pines_gt 10) w_i)
      = inr (acc_i, time_i, cmap_i, gmap_i) /\
    log_of r =
      log_of (run (ICA pavia_u pavia_u_gt 10) w_u)
      ++ figure_log cmap_u gmap_u "Pavia University"
      ++ log_of (run (ICA pavia_c pavia_c_gt 10) w_c)
      ++ figure_log cmap_c gmap_c "Pavia Centre"
      ++ log_of (run (ICA salinas salinas_gt 10) w_s)
      ++ figure_log cmap_s gmap_s "Salinas"
      ++ log_of (run (ICA indian_pines indian_pines_gt 10) w_i)
      ++ figure_log cmap_i gmap_i "Indian Pines"
      ++ [ Printed (summary_line float_mul "Pavia University" time_u acc_u);
           Printed (summary_line float_mul "Pavia Centre" time_c acc_c);
           Printed (summary_line float_mul "Salinas" time_s acc_s);
           Printed (summary_line float_mul "Indian Pines" time_i acc_i) ].
Proof.
  intros r. subst r. drive; try discriminate. intros _.
  repeat match goal with
         | Hv : visualize_classification_map ?cm ?gm ?n ?w0
                = mk_result (inr tt) _ ?l |- _ =>
             let Hl := fresh in
             pose proof (@visualize_complete E cm gm n w0 tt) as Hl;
             unfold run in Hl; rewrite Hv in Hl; cbn [outcome log_of] in Hl;
             specialize (Hl eq_refl); clear Hv; subst l
         end.
  repeat match goal with
         | Hi : ICA ?a ?b ?n ?w0 = mk_result ?o _ ?l |- _ =>
             assert (outcome (run (ICA a b n) w0) = o)
               by (unfold run; rewrite Hi; reflexivity);
             assert (l = log_of (run (ICA a b n) w0))
               by (unfold run; rewrite Hi; reflexivity);
             clear Hi; subst l
         end.
  do 28 eexists.
  repeat (split; [first [eassumption | reflexivity]|]).
  reflexivity.
Qed.

End DriverRuns.

Section Settings.

Context {E : Env}.

(** [ICA] never asks for a file to be written. *)
Lemma ICA_calls_no_savefig
    (w : world E) (hsi_image : ndarray Q) (gt : ndarray Z) (n_components : nat) :
  collect (@savefig_call _) (log_of (run (ICA hsi_image gt n_components) w))
    = [].
Proof.
  unfold ICA, model_train_test.
  walk_any; try (destruct (_ <? _); script_simpl);
    repeat (next_any; script_simpl); reflexivity.
Qed.

(** The settings of every reduction, split and fit that [ICA] asks for. *)
Lemma ICA_settings
    (w : world E) (hsi_image : ndarray Q) (gt : ndarray Z) (n_components : nat) :
  let l := log_of (run (ICA hsi_image gt n_components) w) in
  (forall n rs X a, In (n, rs, X, a) (collect (@ica_call _) l) ->
     n = n_components /\ rs = Some 42%Z) /\
  (forall X y s ts rs a, In (X, y, s, ts, rs, a) (collect (@split_call _) l) ->
     s = Some y /\ ts = 1 # 5 /\ rs = Some 42%Z) /\
  (forall p X y ev, In (p, X, y, ev) (collect (@fit_call _) l) ->
     p = catboost_params 42 /\ ev <> None).
Proof.
  unfold ICA, model_train_test.
  walk_any; try (destruct (_ <? _); script_simpl);
    repeat (next_any; script_simpl);
    cbn [collect ica_call split_call fit_call In];
    repeat split; intros;
    repeat match goal with
           | Hin : False |- _ => destruct Hin
           | Hin : _ \/ _ |- _ => destruct Hin as [Hin|Hin]
           | Heq : (_, _) = (_, _) |- _ => injection Heq as <-
           end;
    subst; try reflexivity; try discriminate.
Qed.

(** The renderer asks for no reduction, no split and no fit. *)
Lemma visualize_calls_no_solver
    (w : world E) (cm gm : ndarray Z) (name : string) :
  let l := log_of (run (visualize_classification_map cm gm name) w) in
  collect (@ica_call _) l = [] /\ collect (@split_call _) l = [] /\
  collect (@fit_call _) l = [].
Proof.
  unfold visualize_classification_map. open_script.
  repeat (next_answer; script_simpl); repeat split.
Qed.

Variable loadmat_cube : string -> exn + list (string * ndarray Q).
Variable loadmat_grid : string -> exn + list (string * ndarray Z).
Variable float_mul : Q -> Q -> Q.

(** What a stage of the driver contributes to the figures asked for. *)
Ltac figures_of_stages :=
  repeat match goal with
         | Hi : ICA ?a ?b ?n ?w0 = mk_result _ _ ?l |- _ =>
             let F := fresh "F" in
             pose proof (@ICA_calls_no_savefig w0 a b n) as F;
             unfold run in F; rewrite Hi in F; cbn [log_of] in F;
             clear Hi
         | Hv : visualize_classification_map ?cm ?gm ?n ?w0
                = mk_result (inr tt) _ ?l |- _ =>
             let F := fresh "F" in
             pose proof (@visualize_complete E cm gm n w0 tt) as F;
             unfold run in F; rewrite Hv in F; cbn [outcome log_of] in F;
             specialize (F eq_refl); clear Hv; subst l
         | Hv : visualize_classification_map ?cm ?gm ?n ?w0
                = mk_result (inl _) _ ?l |- _ =>
             let F := fresh "F" in
             pose proof (@visualize_savefig_paths E cm gm n w0) as F;
             unfold run in F; rewrite Hv in F; cbn [log_of] in F;
             clear Hv; destruct F as [F|F]
         end.

(** X11: each figure is asked for at most once and in the order of the
    script.  In every run of the driver, failed or not, the paths handed to
    [savefig] are a prefix of the four paths of the four data sets; in a run
    that returns they are the four. *)
Theorem driver_renders_in_order (w : world E) :
  let r := run (main loadmat_cube loadmat_grid float_mul) w in
  (exists k, collect (@savefig_call _) (log_of r) = firstn k driver_figures) /\
  (forall u, outcome r = inr u ->
     collect (@savefig_call _) (log_of r) = driver_figures).
Proof.
  intros r. subst r. drive; figures_of_stages;
    rewrite ?collect_app;
    repeat match goal with
           | F : collect _ ?l = _ |- _ => rewrite F; clear F
           end;
    cbn [collect savefig_call figure_log app];
    (split;
     [ first [ exists 0; reflexivity | exists 1; reflexivity
             | exists 2; reflexivity | exists 3; reflexivity
             | exists 4; reflexivity ]
     | intros u Hu; first [discriminate | reflexivity] ]).
Qed.

Ltac settings_of_stages :=
  repeat match goal with
         | Hi : ICA ?a ?b ?n ?w0 = mk_result _ _ ?l |- _ =>
             let F := fresh "F" in
             pose proof (@ICA_settings w0 a b n) as F;
             unfold run in F; rewrite Hi in F; cbn [log_of] in F;
             destruct F as (? & ? & ?); clear Hi
         | Hv : visualize_classification_map ?cm ?gm ?n ?w0
                = mk_result _ _ ?l |- _ =>
             let F := fresh "F" in
             pose proof (@visualize_calls_no_solver w0 cm gm n) as F;
             unfold run in F; rewrite Hv in F; cbn [log_of] in F;
             destruct F as (? & ? & ?); clear Hv
         end.

(** X12: every data set of a driver run is processed with the same
    settings.  Every reduction in the log asks for ten components with seed
    42; every split is stratified on the labels it splits, with test fraction
    0.2 and seed 42; every fit uses the parameters of [catboost_params] with
    seed 42 and comes with a validation set. *)
Theorem driver_settings (w : world E) :
  let l := log_of (run (main loadmat_cube loadmat_grid float_mul) w) in
  (forall n rs X a, In (n, rs, X, a) (collect (@ica_call _) l) ->
     n = 10 /\ rs = Some 42%Z) /\
  (forall X y s ts rs a, In (X, y, s, ts, rs, a) (collect (@split_call _) l) ->
     s = Some y /\ ts = 1 # 5 /\ rs = Some 42%Z) /\
  (forall p X y ev, In (p, X, y, ev) (collect (@fit_call _) l) ->
     p = catboost_params 42 /\ ev <> None).
Proof.
  intros l. subst l. drive; settings_of_stages;
    rewrite ?collect_app;
    repeat match goal with
           | F : collect _ ?l = [] |- _ => rewrite F; clear F
           end;
    cbn [collect ica_call split_call fit_call app];
    (split; [|split]);
    (let Hin := fresh "Hin" in
     intros until 1;
     match goal with Hx : In _ _ |- _ => rename Hx into Hin end;
     rewrite ?in_app_iff in Hin; cbn [In] in Hin;
     repeat match type of Hin with
            | _ \/ _ => destruct Hin as [Hin|Hin]
            | False => destruct Hin
            end;
     match goal with
     | F : forall _, _ |- _ => apply F in Hin; exact Hin
     end).
Qed.

End Settings.

(* ===================================================================== *)
(** ** The further properties at work *)
(* ===================================================================== *)

Lemma pipeline_chains_its_stages_demo :
  exists scaled limited,
    shape wide_cube = [2; 2; 10] /\ 10 <= 10 /\
    respond ref_env
      (StandardScaler_fit_transform (mk_ndarray [2 * 2; 10] (data wide_cube)))
      ref_start = (inr scaled, ref_start) /\
    respond ref_env (FastICA_fit_transform 10 (Some 42%Z) scaled) ref_start
      = (inr limited, ref_start) /\
    collect (@ica_call _)
      (log_of (run (E := ref_env) (ICA wide_cube wide_gt 10) ref_start))
      = [(10, Some 42%Z, scaled, inr limited)].
Proof.
  do 2 eexists. split; [reflexivity|]. split; [lia|].
  split; [vm_compute; reflexivity|]. split; [vm_compute; reflexivity|].
  refine (proj1 (proj2 (@pipeline_chains_its_stages ref_env wide_cube wide_gt
                          2 2 10 eq_refl 10 ref_start ref_start ref_start
                          _ _ _ _ _))).
  - vm_compute. reflexivity.
  - lia.
  - vm_compute. reflexivity.
Defined.

Lemma training_time_brackets_fit_demo :
  shape demo_cube = [2; 5; 3] /\
  outcome (run (E := ref_env)
             (model_train_test demo_cube demo_gt demo_limited (1 # 5) 42)
             ref_start)
    = inr (1 # 2, 1%Q, mk_ndarray [2; 5] (repeat 0%Z 10), demo_gt) /\
  exists start end_,
    collect (@clock_reading _)
      (log_of (run (E := ref_env)
                 (model_train_test demo_cube demo_gt demo_limited (1 # 5) 42)
                 ref_start)) = [start; end_] /\
    1%Q = (end_ - start)%Q.
Proof.
  split; [reflexivity|]. split; [vm_compute; reflexivity|].
  destruct (@training_time_brackets_fit ref_env demo_cube demo_gt 2 5 3
              eq_refl demo_limited (1 # 5) 42%Z ref_start (1 # 2) 1%Q
              (mk_ndarray [2; 5] (repeat 0%Z 10)) demo_gt)
    as (start & end_ & _ & _ & _ & _ & _ & _ & _ & Hclock & Htime).
  - vm_compute. reflexivity.
  - exists start, end_. split; [exact Hclock | exact Htime].
Defined.

Lemma returned_maps_have_cube_extent_demo :
  shape demo_cube = [2; 5; 3] /\ shape (ravel demo_gt) = [10] /\
  outcome (run (E := ref_env)
             (model_train_test demo_cube (ravel demo_gt) demo_limited
                               (1 # 5) 42) ref_start)
    = inr (1 # 2, 1%Q, mk_ndarray [2; 5] (repeat 0%Z 10), demo_gt) /\
  shape demo_gt = [2; 5] /\ size (ravel demo_gt) = 2 * 5.
Proof.
  split; [reflexivity|]. split; [reflexivity|].
  split; [vm_compute; reflexivity|].
  destruct (@returned_maps_have_cube_extent ref_env demo_cube (ravel demo_gt)
              2 5 3 eq_refl demo_limited (1 # 5) 42%Z ref_start (1 # 2) 1%Q
              (mk_ndarray [2; 5] (repeat 0%Z 10)) demo_gt)
    as (_ & Hshape & _ & Hsize & _).
  - vm_compute. reflexivity.
  - split; [exact Hshape | exact Hsize].
Defined.

Lemma needs_three_axes_demo :
  List.length (shape flat_image) < 3 /\
  outcome (run (E := ref_env) (ICA flat_image demo_gt 2) ref_start)
    = inl (IndexError "tuple index out of range").
Proof.
  split; [cbn; lia|].
  exact (proj1 (proj1 (@needs_three_axes ref_env ref_start flat_image demo_gt
                         demo_limited 2 (1 # 5) 42%Z
                         ltac:(cbn; lia)))).
Defined.

Lemma unflattenable_cube_is_rejected_demo :
  shape (mk_ndarray [1; 2; 2; 5] (data demo_limited)) = [1; 2; 2; 5] /\
  size (mk_ndarray [1; 2; 2; 5] (data demo_limited)) <> 1 * 2 * 2 /\
  log_of (run (E := ref_env)
            (ICA (mk_ndarray [1; 2; 2; 5] (data demo_limited)) demo_gt 2)
            ref_start) = [].
Proof.
  split; [reflexivity|]. split; [cbn; lia|].
  exact (proj2 (@unflattenable_cube_is_rejected ref_env ref_start
                  (mk_ndarray [1; 2; 2; 5] (data demo_limited)) demo_gt
                  2 1 2 2 [5] eq_refl ltac:(cbn; lia))).
Defined.

Lemma ICA_propagates_failures_demo :
  In (PyExc "CatBoostError" "No GPU devices found")
     (collect (@failure_of _)
        (log_of (run (E := ref_env) (ICA demo_cube demo_gt 2) other_world))) /\
  outcome (run (E := ref_env) (ICA demo_cube demo_gt 2) other_world)
    = inl (PyExc "CatBoostError" "No GPU devices found").
Proof.
  assert (In (PyExc "CatBoostError" "No GPU devices found")
            (collect (@failure_of _)
               (log_of (run (E := ref_env) (ICA demo_cube demo_gt 2)
                          other_world)))) as Hin
    by (vm_compute; left; reflexivity).
  split; [exact Hin|].
  exact (proj1 (proj2 (@ICA_propagates_failures ref_env other_world demo_cube
                         demo_gt 2) _ Hin)).
Defined.

Lemma figure_message_is_truthful_demo :
  In [Str "Figure saved as Salinas_classification_vs_ground_truth.png"]
     (collect (@printed_line _)
        (log_of (run (E := ref_env)
                   (visualize_classification_map demo_gt demo_gt "Salinas")
                   ref_start))) /\
  outcome (run (E := ref_env)
             (visualize_classification_map demo_gt demo_gt "Salinas")
             ref_start) = inr tt.
Proof.
  assert (In [Str "Figure saved as Salinas_classification_vs_ground_truth.png"]
            (collect (@printed_line _)
               (log_of (run (E := ref_env)
                          (visualize_classification_map demo_gt demo_gt
                             "Salinas") ref_start)))) as Hin
    by (vm_compute; left; reflexivity).
  split; [exact Hin|].
  exact (proj2 (proj2 (proj1 (@figure_message_is_truthful ref_env demo_gt
                                demo_gt "Salinas" ref_start) _ Hin))).
Defined.

Lemma figure_paths_are_distinct_demo :
  "Salinas" <> "Pavia Centre" /\
  In "Salinas_classification_vs_ground_truth.png"
     (collect (@savefig_call _)
        (log_of (run (E := ref_env)
                   (visualize_classification_map demo_gt demo_gt "Salinas")
                   ref_start))) /\
  ~ In "Salinas_classification_vs_ground_truth.png"
      (collect (@savefig_call _)
         (log_of (run (E := ref_env)
                    (visualize_classification_map demo_gt demo_gt
                       "Pavia Centre") other_world))).
Proof.
  assert ("Salinas" <> "Pavia Centre") as Hne by discriminate.
  assert (In "Salinas_classification_vs_ground_truth.png"
            (collect (@savefig_call _)
               (log_of (run (E := ref_env)
                          (visualize_classification_map demo_gt demo_gt
                             "Salinas") ref_start)))) as Hin
    by (vm_compute; left; reflexivity).
  split; [exact Hne|]. split; [exact Hin|].
  exact (@figure_paths_are_distinct ref_env demo_gt demo_gt "Salinas"
           ref_start other_world demo_gt demo_gt "Pavia Centre" _ Hne Hin).
Defined.

Lemma driver_complete_demo :
  outcome (run (E := ref_env)
             (main (loadmat_from cube_disk) (loadmat_from grid_disk) Qmult)
             ref_start) = inr tt /\
  exists before time_u acc_u time_c acc_c time_s acc_s time_i acc_i,
    log_of (run (E := ref_env)
              (main (loadmat_from cube_disk) (loadmat_from grid_disk) Qmult)
              ref_start) =
    before ++ [ Printed (summary_line Qmult "Pavia University" time_u acc_u);
                Printed (summary_line Qmult "Pavia Centre" time_c acc_c);
                Printed (summary_line Qmult "Salinas" time_s acc_s);
                Printed (summary_line Qmult "Indian Pines" time_i acc_i) ].
Proof.
  assert (outcome (run (E := ref_env)
                     (main (loadmat_from cube_disk) (loadmat_from grid_disk) Qmult)
                     ref_start) = inr tt) as Hout
    by (vm_compute; reflexivity).
  split; [exact Hout|].
  destruct (@driver_complete ref_env (loadmat_from cube_disk)
              (loadmat_from grid_disk) Qmult ref_start Hout)
    as (pu & pug & pc & pcg & s & sg & ip & ipg
        & acc_u & time_u & cmap_u & gmap_u & w_u
        & acc_c & time_c & cmap_c & gmap_c & w_c
        & acc_s & time_s & cmap_s & gmap_s & w_s
        & acc_i & time_i & cmap_i & gmap_i & w_i
        & _ & _ & _ & _ & _ & _ & _ & _ & _ & _ & _ & _ & _ & Hlog).
  exists (log_of (run (ICA pu pug 10) w_u)
          ++ figure_log cmap_u gmap_u "Pavia University"
          ++ log_of (run (ICA pc pcg 10) w_c)
          ++ figure_log cmap_c gmap_c "Pavia Centre"
          ++ log_of (run (ICA s sg 10) w_s)
          ++ figure_log cmap_s gmap_s "Salinas"
          ++ log_of (run (ICA ip ipg 10) w_i)
          ++ figure_log cmap_i gmap_i "Indian Pines").
  exists time_u, acc_u, time_c, acc_c, time_s, acc_s, time_i, acc_i.
  rewrite Hlog. rewrite <- !app_assoc. reflexivity.
Defined.

Lemma driver_renders_in_order_demo :
  outcome (run (E := ref_env)
             (main (loadmat_from cube_disk) (loadmat_from grid_disk) Qmult)
             ref_start) = inr tt /\
  collect (@savefig_call _)
    (log_of (run (E := ref_env)
               (main (loadmat_from cube_disk) (loadmat_from grid_disk) Qmult)
               ref_start)) = driver_figures.
Proof.
  assert (outcome (run (E := ref_env)
                     (main (loadmat_from cube_disk) (loadmat_from grid_disk) Qmult)
                     ref_start) = inr tt) as Hout
    by (vm_compute; reflexivity).
  split; [exact Hout|].
  exact (proj2 (@driver_renders_in_order ref_env (loadmat_from cube_disk)
                  (loadmat_from grid_disk) Qmult ref_start) tt Hout).
Defined.

Lemma driver_settings_demo :
  exists n rs X a,
    In (n, rs, X, a)
       (collect (@ica_call _)
          (log_of (run (E := ref_env)
                     (main (loadmat_from cube_disk) (loadmat_from grid_disk) Qmult)
                     ref_start))) /\
    n = 10 /\ rs = Some 42%Z.
Proof.
  do 4 eexists.
  refine (let Hin := _ in
          conj Hin (proj1 (@driver_settings ref_env (loadmat_from cube_disk)
                             (loadmat_from grid_disk) Qmult ref_start)
                          _ _ _ _ Hin)).
  vm_compute. left. reflexivity.
Defined.
